(** * Verification of the third-party dependency installer

    A shallow embedding of [scripts/install_dependencies_json_packages.py]:
    the manifest validator ([test_dependencies_syntax],
    [validate_dependencies]), the three fetchers ([download_files],
    [download_and_unzip_files], [download_and_untar_files]) and the
    orchestrator ([download_all_dependencies]).

    Python strings are [string]; a [DependencyDict] (a [TypedDict] with
    [total=False]) is a record of optional fields; dictionaries that are
    iterated are association lists in insertion order.  The script runs
    in a small monad that threads the state of the machine (file system
    and network), the log of calls made to collaborators and the standard
    output, and that ends in a value, a raised exception or [sys.exit]. *)

From Stdlib Require Import String Ascii List Bool ZArith Lia.
Import ListNotations.
Open Scope string_scope.

(** ** Python string operations used by the script *)

(** [sub in s] for a one-character [sub]. *)
Fixpoint contains_char (c : ascii) (s : string) : bool :=
  match s with
  | EmptyString => false
  | String a s' => if Ascii.eqb a c then true else contains_char c s'
  end.

(** [s.endswith(suffix)]. *)
Fixpoint endswith (s suffix : string) : bool :=
  if String.eqb s suffix then true
  else match s with
       | EmptyString => false
       | String _ s' => endswith s' suffix
       end.

(** [s.startswith(prefix)]. *)
Definition startswith (s pre : string) : bool := String.prefix pre s.

(** Split of [s] at the last occurrence of [sep], if there is one. *)
Fixpoint split_last (sep : ascii) (s : string) : option (string * string) :=
  match s with
  | EmptyString => None
  | String a s' =>
      match split_last sep s' with
      | Some (h, t) => Some (String a h, t)
      | None => if Ascii.eqb a sep then Some (EmptyString, s') else None
      end
  end.

(** [s.rpartition(sep)] for a one-character [sep]: the part before the
    last separator, the separator, the part after it; two empty strings
    and [s] when [s] has no separator. *)
Definition rpartition (sep : ascii) (s : string) : string * string * string :=
  match split_last sep s with
  | Some (h, t) => (h, String sep EmptyString, t)
  | None => (EmptyString, EmptyString, s)
  end.

(** The one-character string made of a double quote. *)
Definition dquote : string := String (Ascii.ascii_of_nat 34) EmptyString.

(** [key in keys] for a list of strings. *)
Definition in_list (key : string) (keys : list string) : bool :=
  existsb (String.eqb key) keys.

(** [', '.join(l)] *)
Fixpoint str_join (sep : string) (l : list string) : string :=
  match l with
  | [] => EmptyString
  | [x] => x
  | x :: rest => x ++ sep ++ str_join sep rest
  end.

(** [os.path.join(a, b)] of [posixpath], for two components. *)
Definition os_path_join (a b : string) : string :=
  if startswith b "/" then b
  else if (String.eqb a EmptyString || endswith a "/")%bool then a ++ b
  else a ++ "/" ++ b.

(** ** Constants of the module *)

Definition TOOLS_DIR : string := os_path_join ".." "oppia_tools".
Definition THIRD_PARTY_DIR : string := os_path_join "." "third_party".
Definition THIRD_PARTY_STATIC_DIR : string :=
  os_path_join THIRD_PARTY_DIR "static".

(** Place to download zip files for temporary storage. *)
Definition TMP_UNZIP_PATH : string := os_path_join "." "tmp_unzip.zip".

(** The dictionary [TARGET_DOWNLOAD_DIRS]; [None] is a missing key. *)
Definition TARGET_DOWNLOAD_DIRS (category : string) : option string :=
  if String.eqb category "proto" then Some THIRD_PARTY_DIR
  else if String.eqb category "frontend" then Some THIRD_PARTY_STATIC_DIR
  else if String.eqb category "oppiaTools" then Some TOOLS_DIR
  else None.

Definition _DOWNLOAD_FORMAT_ZIP : string := "zip".
Definition _DOWNLOAD_FORMAT_TAR : string := "tar".
Definition _DOWNLOAD_FORMAT_FILES : string := "files".

Record DownloadFormatToDependenciesKeysDict : Type := {
  mandatory_keys : list string;
  optional_key_pairs : list (list string)
}.

(** The dictionary [DOWNLOAD_FORMATS_TO_DEPENDENCIES_KEYS]. *)
Definition DOWNLOAD_FORMATS_TO_DEPENDENCIES_KEYS (format : string)
  : option DownloadFormatToDependenciesKeysDict :=
  if String.eqb format "zip" then
    Some {| mandatory_keys := ["version"; "url"; "downloadFormat"];
            optional_key_pairs :=
              [["rootDir"; "rootDirPrefix"]; ["targetDir"; "targetDirPrefix"]] |}
  else if String.eqb format "files" then
    Some {| mandatory_keys :=
              ["version"; "url"; "files"; "targetDirPrefix"; "downloadFormat"];
            optional_key_pairs := [] |}
  else if String.eqb format "tar" then
    Some {| mandatory_keys :=
              ["version"; "url"; "tarRootDirPrefix"; "targetDirPrefix";
               "downloadFormat"];
            optional_key_pairs := [] |}
  else None.

(** ** The manifest *)

(** [DependencyDict]: every field may be absent. *)
Record DependencyDict : Type := {
  version : option string;
  downloadFormat : option string;
  url : option string;
  rootDirPrefix : option string;
  rootDir : option string;
  targetDirPrefix : option string;
  targetDir : option string;
  tarRootDirPrefix : option string;
  files : option (list string);
  bundle : option (list (string * list string))
}.

Definition key_if_present {A : Type} (key : string) (field : option A)
  : list string :=
  match field with Some _ => [key] | None => [] end.

(** [list(dependency_dict.keys())]; only membership is ever tested. *)
Definition dict_keys (d : DependencyDict) : list string :=
  (key_if_present "version" (version d)
   ++ key_if_present "downloadFormat" (downloadFormat d)
   ++ key_if_present "url" (url d)
   ++ key_if_present "rootDirPrefix" (rootDirPrefix d)
   ++ key_if_present "rootDir" (rootDir d)
   ++ key_if_present "targetDirPrefix" (targetDirPrefix d)
   ++ key_if_present "targetDir" (targetDir d)
   ++ key_if_present "tarRootDirPrefix" (tarRootDirPrefix d)
   ++ key_if_present "files" (files d)
   ++ key_if_present "bundle" (bundle d))%list.

(** [DependenciesDict]: category -> dependency name -> entry. *)
Record DependenciesDict : Type := {
  dependencies : list (string * list (string * DependencyDict))
}.

(** ** Exceptions, outcomes and the state of a run *)

Inductive exn : Type :=
| KeyError (key : string)
| Exception (msg : string) (arg : DependencyDict)
| LibraryError (cls : string)
| KeyboardInterrupt.

(** Whether [except Exception] catches it. *)
Definition is_Exception (e : exn) : bool :=
  match e with KeyboardInterrupt => false | _ => true end.

Inductive outcome (A : Type) : Type :=
| Ok (a : A)
| Raised (e : exn)
| Exited (status : Z).
Arguments Ok {A} a.
Arguments Raised {A} e.
Arguments Exited {A} status.

(** Exit status of the interpreter when a run ends this way. *)
Definition exit_status {A : Type} (o : outcome A) : Z :=
  match o with
  | Ok _ => 0
  | Raised _ => 1
  | Exited status => status
  end.

(** What [print] is given: a string, or a dependency dictionary. *)
Inductive printed : Type :=
| PStr (s : string)
| PDict (d : DependencyDict).

Inductive zip_source : Type :=
| ZipPath (path : string)
| ZipBytes (content : string).

(** A request of [urllib.request.Request] with its added headers. *)
Record request : Type := {
  req_url : string;
  req_headers : list (string * string)
}.

(** Calls to collaborators that act on the file system or the network. *)
Inductive call : Type :=
| CEnsureDirectoryExists (dir : string)
| CUrlRetrieve (source_url path : string)
| CZipExtractAll (src : zip_source) (target : string)
| CTarExtractAll (path target : string)
| CRemove (path : string)
| CRename (src dst : string)
| CUrlOpenRead (req : request).

Definition is_network_call (c : call) : bool :=
  match c with
  | CUrlRetrieve _ _ | CUrlOpenRead _ => true
  | _ => false
  end.

Record state (W : Type) : Type := {
  world : W;
  calls : list call;
  stdout : list printed
}.
Arguments world {W} s.
Arguments calls {W} s.
Arguments stdout {W} s.

(** The collaborators of the script on a machine whose file system and
    network are in state [W].  An action returns the exception it
    raised, if any, and the state it leaves. *)
Record Platform (W : Type) : Type := {
  (* os.path.exists *)
  sys_exists : string -> W -> bool;
  (* common.ensure_directory_exists *)
  sys_ensure_directory_exists : string -> W -> option exn * W;
  (* common.url_retrieve(url, path) *)
  sys_url_retrieve : string -> string -> W -> option exn * W;
  (* with zipfile.ZipFile(src, 'r') as zfile: zfile.extractall(path=target) *)
  sys_zip_extractall : zip_source -> string -> W -> option exn * W;
  (* with contextlib.closing(tarfile.open(name=path, mode='r:gz')) as tfile:
       tfile.extractall(target) *)
  sys_tar_extractall : string -> string -> W -> option exn * W;
  (* os.remove *)
  sys_remove : string -> W -> option exn * W;
  (* os.rename *)
  sys_rename : string -> string -> W -> option exn * W;
  (* utils.url_open(req).read() *)
  sys_url_open_read : request -> W -> (exn + string) * W;
  (* utils.open_file(filepath, 'r') and f.read() *)
  sys_read_file : string -> W -> exn + string;
  (* json.loads, cast to DependenciesDict *)
  sys_json_loads : string -> exn + DependenciesDict
}.
Arguments sys_exists {W} p.
Arguments sys_ensure_directory_exists {W} p.
Arguments sys_url_retrieve {W} p.
Arguments sys_zip_extractall {W} p.
Arguments sys_tar_extractall {W} p.
Arguments sys_remove {W} p.
Arguments sys_rename {W} p.
Arguments sys_url_open_read {W} p.
Arguments sys_read_file {W} p.
Arguments sys_json_loads {W} p.

(** ** The monad of the script *)

Definition M (W A : Type) : Type := state W -> outcome A * state W.

Definition ret {W A : Type} (a : A) : M W A := fun st => (Ok a, st).

Definition bind {W A B : Type} (m : M W A) (k : A -> M W B) : M W B :=
  fun st =>
    match m st with
    | (Ok a, st') => k a st'
    | (Raised e, st') => (Raised e, st')
    | (Exited n, st') => (Exited n, st')
    end.

Definition raise {W A : Type} (e : exn) : M W A := fun st => (Raised e, st).

(** [sys.exit(status)] *)
Definition sys_exit {W A : Type} (status : Z) : M W A :=
  fun st => (Exited status, st).

Declare Scope py_scope.
Delimit Scope py_scope with py.
Notation "x <- m ;; k" := (bind m (fun x => k))
  (at level 61, m at next level, right associativity) : py_scope.
Notation "m ;; k" := (bind m (fun _ => k))
  (at level 61, right associativity) : py_scope.
Open Scope py_scope.

(** [try: body except Exception: handler] *)
Definition try_except {W A : Type} (body handler : M W A) : M W A :=
  fun st =>
    match body st with
    | (Raised e, st') =>
        if is_Exception e then handler st' else (Raised e, st')
    | r => r
    end.

(** [for x in l: body(x)] *)
Fixpoint for_each {W A : Type} (l : list A) (body : A -> M W unit)
  : M W unit :=
  match l with
  | [] => ret tt
  | x :: rest => body x ;; for_each rest body
  end.

(** [print(x)] *)
Definition print_ {W : Type} (x : printed) : M W unit :=
  fun st =>
    (Ok tt, {| world := world st; calls := calls st;
               stdout := (stdout st ++ [x])%list |}).

Definition print {W : Type} (s : string) : M W unit := print_ (PStr s).

(** [d[key]] on a dictionary field. *)
Definition getitem {W A : Type} (key : string) (field : option A) : M W A :=
  match field with
  | Some v => ret v
  | None => raise (KeyError key)
  end.

(** ** The script *)

Section Script.

Variable W : Type.
Variable os : Platform W.

(** An action of a collaborator: logged, then run on the machine. *)
Definition action (c : call) (f : W -> option exn * W) : M W unit :=
  fun st =>
    let r := f (world st) in
    let st' := {| world := snd r; calls := (calls st ++ [c])%list;
                  stdout := stdout st |} in
    match fst r with
    | None => (Ok tt, st')
    | Some e => (Raised e, st')
    end.

Definition os_path_exists (path : string) : M W bool :=
  fun st => (Ok (sys_exists os path (world st)), st).

Definition common_ensure_directory_exists (dir : string) : M W unit :=
  action (CEnsureDirectoryExists dir) (sys_ensure_directory_exists os dir).

Definition common_url_retrieve (source_url path : string) : M W unit :=
  action (CUrlRetrieve source_url path) (sys_url_retrieve os source_url path).

Definition zip_extractall (src : zip_source) (target : string) : M W unit :=
  action (CZipExtractAll src target) (sys_zip_extractall os src target).

Definition tar_extractall (path target : string) : M W unit :=
  action (CTarExtractAll path target) (sys_tar_extractall os path target).

Definition os_remove (path : string) : M W unit :=
  action (CRemove path) (sys_remove os path).

Definition os_rename (src dst : string) : M W unit :=
  action (CRename src dst) (sys_rename os src dst).

Definition url_open_read (req : request) : M W string :=
  fun st =>
    let r := sys_url_open_read os req (world st) in
    let st' := {| world := snd r; calls := (calls st ++ [CUrlOpenRead req])%list;
                  stdout := stdout st |} in
    match fst r with
    | inr content => (Ok content, st')
    | inl e => (Raised e, st')
    end.

(** [download_files(source_url_root, target_dir, source_filenames)].
    The [isinstance] assertion holds by the type of [source_filenames]. *)
Definition download_files (source_url_root target_dir : string)
  (source_filenames : list string) : M W unit :=
  common_ensure_directory_exists target_dir ;;
  for_each source_filenames (fun filename =>
    found <- os_path_exists (os_path_join target_dir filename) ;;
    if negb found then
      print ("Downloading file " ++ filename ++ " to " ++ target_dir ++ " ...") ;;
      common_url_retrieve
        (source_url_root ++ "/" ++ filename)
        (os_path_join target_dir filename) ;;
      print ("Download of " ++ filename ++ " succeeded.")
    else ret tt).

(** [download_and_unzip_files(source_url, target_parent_dir,
    zip_root_name, target_root_name)] *)
Definition download_and_unzip_files
  (source_url target_parent_dir zip_root_name target_root_name : string)
  : M W unit :=
  found <- os_path_exists (os_path_join target_parent_dir target_root_name) ;;
  if negb found then
    print ("Downloading and unzipping file " ++ zip_root_name ++ " to "
           ++ target_parent_dir ++ " ...") ;;
    common_ensure_directory_exists target_parent_dir ;;
    common_url_retrieve source_url TMP_UNZIP_PATH ;;
    try_except
      (zip_extractall (ZipPath TMP_UNZIP_PATH) target_parent_dir ;;
       os_remove TMP_UNZIP_PATH)
      (tmp_found <- os_path_exists TMP_UNZIP_PATH ;;
       (if tmp_found then os_remove TMP_UNZIP_PATH else ret tt) ;;
       (* Some downloads (like jqueryui-themes) may require a user-agent. *)
       let req := {| req_url := source_url;
                     req_headers := [("User-agent", "python")] |} in
       file_stream <- url_open_read req ;;
       zip_extractall (ZipBytes file_stream) target_parent_dir) ;;
    (* Rename the target directory. *)
    os_rename
      (os_path_join target_parent_dir zip_root_name)
      (os_path_join target_parent_dir target_root_name) ;;
    print ("Download of " ++ zip_root_name ++ " succeeded.")
  else ret tt.

(** [download_and_untar_files(source_url, target_parent_dir,
    tar_root_name, target_root_name)] *)
Definition download_and_untar_files
  (source_url target_parent_dir tar_root_name target_root_name : string)
  : M W unit :=
  found <- os_path_exists (os_path_join target_parent_dir target_root_name) ;;
  if negb found then
    print ("Downloading and untarring file " ++ tar_root_name ++ " to "
           ++ target_parent_dir ++ " ...") ;;
    common_ensure_directory_exists target_parent_dir ;;
    common_url_retrieve source_url TMP_UNZIP_PATH ;;
    tar_extractall TMP_UNZIP_PATH target_parent_dir ;;
    os_remove TMP_UNZIP_PATH ;;
    (* Rename the target directory. *)
    os_rename
      (os_path_join target_parent_dir tar_root_name)
      (os_path_join target_parent_dir target_root_name) ;;
    print ("Download of " ++ tar_root_name ++ " succeeded.")
  else ret tt.

(** [get_file_contents(filepath)] *)
Definition get_file_contents (filepath : string) : M W string :=
  fun st =>
    match sys_read_file os filepath (world st) with
    | inr content => (Ok content, st)
    | inl e => (Raised e, st)
    end.

(** [return_json(filepath)] *)
Definition return_json (filepath : string) : M W DependenciesDict :=
  response <- get_file_contents filepath ;;
  match sys_json_loads os response with
  | inr data => ret data
  | inl e => raise e
  end.

(** The first loop of [test_dependencies_syntax]: every mandatory key
    is a key of the dictionary. *)
Definition check_mandatory_keys (dependency_dict : DependencyDict)
  (keys mandatory : list string) : M W unit :=
  for_each mandatory (fun key =>
    if negb (in_list key keys) then
      print "------------------------------------------" ;;
      print "There is syntax error in this dependency" ;;
      print_ (PDict dependency_dict) ;;
      print ("This key is missing or misspelled: " ++ dquote ++ key ++ dquote
             ++ ".") ;;
      print "Exiting" ;;
      sys_exit 1
    else ret tt).

(** [[key for key in optional_keys if key in keys]] *)
Definition optional_keys_in_dict (optional_keys keys : list string)
  : list string :=
  filter (fun key => in_list key keys) optional_keys.

(** The second loop of [test_dependencies_syntax]: exactly one member
    of every pair is a key of the dictionary. *)
Definition check_optional_key_pairs (dependency_dict : DependencyDict)
  (keys : list string) (pairs : list (list string)) : M W unit :=
  for_each pairs (fun optional_keys =>
    if negb (Nat.eqb (List.length (optional_keys_in_dict optional_keys keys)) 1)
    then
      print "------------------------------------------" ;;
      print "There is syntax error in this dependency" ;;
      print_ (PDict dependency_dict) ;;
      print ("Only one of these keys pair must be used: " ++ dquote
             ++ str_join ", " optional_keys ++ dquote ++ ".") ;;
      print "Exiting" ;;
      sys_exit 1
    else ret tt).

(** The condition of the last test of [test_dependencies_syntax]. *)
Definition url_mismatch (dependency_type dependency_url : string) : bool :=
  let is_zip_file_format := String.eqb dependency_type _DOWNLOAD_FORMAT_ZIP in
  let is_tar_file_format := String.eqb dependency_type _DOWNLOAD_FORMAT_TAR in
  (endswith dependency_url ".zip" && negb is_zip_file_format
   || is_zip_file_format && negb (endswith dependency_url ".zip")
   || endswith dependency_url ".tar.gz" && negb is_tar_file_format
   || is_tar_file_format && negb (endswith dependency_url ".tar.gz"))%bool.

(** The url the last test looks at: without its last ['#'] and what
    follows it. *)
Definition strip_fragment (dependency_url : string) : string :=
  if contains_char "#" dependency_url
  then fst (fst (rpartition "#" dependency_url))
  else dependency_url.

(** [test_dependencies_syntax(dependency_type, dependency_dict)] *)
Definition test_dependencies_syntax (dependency_type : string)
  (dependency_dict : DependencyDict) : M W unit :=
  let keys := dict_keys dependency_dict in
  table <- getitem dependency_type
             (DOWNLOAD_FORMATS_TO_DEPENDENCIES_KEYS dependency_type) ;;
  let mandatory := mandatory_keys table in
  (* Optional keys requires exactly one member of the pair
     to be available as a key in the dependency_dict. *)
  let pairs := optional_key_pairs table in
  check_mandatory_keys dependency_dict keys mandatory ;;
  (match pairs with
   | [] => ret tt
   | _ => check_optional_key_pairs dependency_dict keys pairs
   end) ;;
  (* Checks the validity of the URL corresponding to the file format. *)
  dependency_url <- getitem "url" (url dependency_dict) ;;
  let dependency_url := strip_fragment dependency_url in
  if url_mismatch dependency_type dependency_url then
    print "------------------------------------------" ;;
    print "There is syntax error in this dependency" ;;
    print_ (PDict dependency_dict) ;;
    print ("This url " ++ dependency_url ++ " is invalid for "
           ++ dependency_type ++ " file format.") ;;
    print "Exiting." ;;
    sys_exit 1
  else ret tt.

(** The body of the loops of [validate_dependencies]. *)
Definition validate_dependency (dependency_contents : DependencyDict)
  : M W unit :=
  (if negb (in_list "downloadFormat" (dict_keys dependency_contents)) then
     raise (Exception "downloadFormat not specified in %s" dependency_contents)
   else ret tt) ;;
  download_format <- getitem "downloadFormat"
                       (downloadFormat dependency_contents) ;;
  test_dependencies_syntax download_format dependency_contents.

(** [validate_dependencies(filepath)] *)
Definition validate_dependencies (filepath : string) : M W unit :=
  dependencies_data <- return_json filepath ;;
  for_each (dependencies dependencies_data) (fun category =>
    for_each (snd category) (fun named =>
      validate_dependency (snd named))).

(** The body of the loops of [download_all_dependencies]; [data] is the
    category the entry is listed under. *)
Definition download_dependency (data : string)
  (dependency_contents : DependencyDict) : M W unit :=
  dependency_rev <- getitem "version" (version dependency_contents) ;;
  dependency_url <- getitem "url" (url dependency_contents) ;;
  download_format <- getitem "downloadFormat"
                       (downloadFormat dependency_contents) ;;
  if String.eqb download_format _DOWNLOAD_FORMAT_FILES then
    dependency_files <- getitem "files" (files dependency_contents) ;;
    prefix <- getitem "targetDirPrefix" (targetDirPrefix dependency_contents) ;;
    let target_dirname := prefix ++ dependency_rev in
    target_download_dir <- getitem data (TARGET_DOWNLOAD_DIRS data) ;;
    let dependency_dst := os_path_join target_download_dir target_dirname in
    download_files dependency_url dependency_dst dependency_files
  else if String.eqb download_format _DOWNLOAD_FORMAT_ZIP then
    dependency_zip_root_name <-
      (if in_list "rootDir" (dict_keys dependency_contents) then
         getitem "rootDir" (rootDir dependency_contents)
       else
         prefix <- getitem "rootDirPrefix" (rootDirPrefix dependency_contents) ;;
         ret (prefix ++ dependency_rev)) ;;
    dependency_target_root_name <-
      (if in_list "targetDir" (dict_keys dependency_contents) then
         getitem "targetDir" (targetDir dependency_contents)
       else
         prefix <- getitem "targetDirPrefix"
                     (targetDirPrefix dependency_contents) ;;
         ret (prefix ++ dependency_rev)) ;;
    target_download_dir <- getitem data (TARGET_DOWNLOAD_DIRS data) ;;
    download_and_unzip_files
      dependency_url target_download_dir
      dependency_zip_root_name dependency_target_root_name
  else if String.eqb download_format _DOWNLOAD_FORMAT_TAR then
    tar_prefix <- getitem "tarRootDirPrefix"
                    (tarRootDirPrefix dependency_contents) ;;
    let dependency_tar_root_name := tar_prefix ++ dependency_rev in
    prefix <- getitem "targetDirPrefix" (targetDirPrefix dependency_contents) ;;
    let dependency_target_root_name := prefix ++ dependency_rev in
    target_download_dir <- getitem data (TARGET_DOWNLOAD_DIRS data) ;;
    download_and_untar_files
      dependency_url target_download_dir
      dependency_tar_root_name dependency_target_root_name
  else ret tt.

(** [download_all_dependencies(filepath)] *)
Definition download_all_dependencies (filepath : string) : M W unit :=
  validate_dependencies filepath ;;
  dependencies_data <- return_json filepath ;;
  for_each (dependencies dependencies_data) (fun category =>
    for_each (snd category) (fun named =>
      download_dependency (fst category) (snd named))).

End Script.

(** ** A simulated machine

    Its state is the list of the paths that exist.  Every archive of
    the simulated network unpacks to one folder named [archive_root];
    when [needs_user_agent] is set, the archive fetched without a
    user-agent header is not a zip file.  The manifest file holds
    [manifest]. *)

Module Sim.

Definition add_path (p : string) (w : list string) : list string :=
  if in_list p w then w else p :: w.

Definition del_path (p : string) (w : list string) : list string :=
  filter (fun q => negb (String.eqb p q)) w.

Definition platform (needs_user_agent : bool) (archive_root : string)
  (manifest : DependenciesDict) : Platform (list string) :=
  {| sys_exists := in_list;
     sys_ensure_directory_exists := fun dir w => (None, add_path dir w);
     sys_url_retrieve := fun _ path w => (None, add_path path w);
     sys_zip_extractall := fun src target w =>
       match src with
       | ZipPath path =>
           if negb (in_list path w) then (Some (LibraryError "FileNotFoundError"), w)
           else if needs_user_agent then (Some (LibraryError "BadZipFile"), w)
           else (None, add_path (os_path_join target archive_root) w)
       | ZipBytes _ => (None, add_path (os_path_join target archive_root) w)
       end;
     sys_tar_extractall := fun path target w =>
       if in_list path w then (None, add_path (os_path_join target archive_root) w)
       else (Some (LibraryError "FileNotFoundError"), w);
     sys_remove := fun path w =>
       if in_list path w then (None, del_path path w)
       else (Some (LibraryError "FileNotFoundError"), w);
     sys_rename := fun src dst w =>
       if in_list src w then (None, add_path dst (del_path src w))
       else (Some (LibraryError "FileNotFoundError"), w);
     sys_url_open_read := fun _ w => (inr "PK", w);
     sys_read_file := fun path w =>
       if in_list path w then inr "{}"
       else inl (LibraryError "FileNotFoundError");
     sys_json_loads := fun _ => inr manifest |}.

Definition initial (w : list string) : state (list string) :=
  {| world := w; calls := []; stdout := [] |}.

End Sim.

(** The example entry of the specification. *)
Definition example_zip_entry : DependencyDict :=
  {| version := Some "3";
     downloadFormat := Some "zip";
     url := Some "https://x/pkg-3.zip";
     rootDirPrefix := Some "pkg-";
     rootDir := None;
     targetDirPrefix := Some "pkg-";
     targetDir := None;
     tarRootDirPrefix := None;
     files := None;
     bundle := None |}.

(** ** Properties and verdicts used in the statements *)

(** A computation that only writes diagnostics: it leaves the machine
    alone, calls no collaborator, and when it exits, exits with 1. *)
Definition diagnostic_only {W A : Type} (m : M W A) : Prop :=
  forall st,
    world (snd (m st)) = world st /\
    calls (snd (m st)) = calls st /\
    forall n, fst (m st) = Exited n -> n = 1%Z.

(** Every mandatory key is a key of the dictionary. *)
Definition all_mandatory_present (keys mandatory : list string) : bool :=
  forallb (fun key => in_list key keys) mandatory.

(** Exactly one of [optional_keys] is a key of the dictionary. *)
Definition exactly_one_present (keys optional_keys : list string) : bool :=
  Nat.eqb (List.length (optional_keys_in_dict optional_keys keys)) 1.

(** The way [test_dependencies_syntax] ends, as a function of its
    arguments alone. *)
Definition syntax_verdict (dependency_type : string) (d : DependencyDict)
  : outcome unit :=
  match DOWNLOAD_FORMATS_TO_DEPENDENCIES_KEYS dependency_type with
  | None => Raised (KeyError dependency_type)
  | Some table =>
      if negb (all_mandatory_present (dict_keys d) (mandatory_keys table))
      then Exited 1
      else if negb (forallb (exactly_one_present (dict_keys d))
                      (optional_key_pairs table))
      then Exited 1
      else match url d with
           | None => Raised (KeyError "url")
           | Some u =>
               if url_mismatch dependency_type (strip_fragment u)
               then Exited 1 else Ok tt
           end
  end.

(** An entry that validation rejects, whatever the state it runs in. *)
Definition malformed (W : Type) (d : DependencyDict) : Prop :=
  forall st : state W, fst (validate_dependency W d st) <> Ok tt.

(** The name the specification gives to a directory: the explicit field
    when present, otherwise the prefix followed by the version. *)
Definition resolve_name (explicit prefix : option string) (rev : string)
  : option string :=
  match explicit with
  | Some name => Some name
  | None => option_map (fun p => p ++ rev) prefix
  end.

(** The entry has every mandatory key of the format. *)
Definition has_mandatory_keys (format : string) (d : DependencyDict) : bool :=
  match DOWNLOAD_FORMATS_TO_DEPENDENCIES_KEYS format with
  | Some table => all_mandatory_present (dict_keys d) (mandatory_keys table)
  | None => false
  end.

(** The entry has exactly one member of every optional key pair of the
    format. *)
Definition optional_pairs_ok (format : string) (d : DependencyDict) : bool :=
  match DOWNLOAD_FORMATS_TO_DEPENDENCIES_KEYS format with
  | Some table =>
      forallb (exactly_one_present (dict_keys d)) (optional_key_pairs table)
  | None => false
  end.

(** [key in d] for a field of the dictionary. *)
Definition is_some {A : Type} (field : option A) : bool :=
  match field with Some _ => true | None => false end.

(** A list of single files served from a url that ends in [.zip]. *)
Definition files_entry_zip_url : DependencyDict :=
  {| version := Some "1.0";
     downloadFormat := Some "files";
     url := Some "https://x/release.zip";
     rootDirPrefix := None;
     rootDir := None;
     targetDirPrefix := Some "fonts-";
     targetDir := None;
     tarRootDirPrefix := None;
     files := Some ["a.css"];
     bundle := None |}.

(** A list of single files served from a plain url. *)
Definition files_entry_plain_url : DependencyDict :=
  {| version := Some "1.0";
     downloadFormat := Some "files";
     url := Some "https://x/release";
     rootDirPrefix := None;
     rootDir := None;
     targetDirPrefix := Some "fonts-";
     targetDir := None;
     tarRootDirPrefix := None;
     files := Some ["a.css"];
     bundle := None |}.

(** A zip archive whose url carries a fragment. *)
Definition zip_entry_with_fragment : DependencyDict :=
  {| version := Some "3";
     downloadFormat := Some "zip";
     url := Some "https://x/pkg-3.zip#sha1";
     rootDirPrefix := Some "pkg-";
     rootDir := None;
     targetDirPrefix := Some "pkg-";
     targetDir := None;
     tarRootDirPrefix := None;
     files := None;
     bundle := None |}.

(** A zip archive whose url names a tarball. *)
Definition zip_entry_tar_url : DependencyDict :=
  {| version := Some "3";
     downloadFormat := Some "zip";
     url := Some "https://x/pkg-3.tar.gz";
     rootDirPrefix := Some "pkg-";
     rootDir := None;
     targetDirPrefix := Some "pkg-";
     targetDir := None;
     tarRootDirPrefix := None;
     files := None;
     bundle := None |}.

(** A zip archive that names its root folder twice. *)
Definition zip_entry_both_roots : DependencyDict :=
  {| version := Some "3";
     downloadFormat := Some "zip";
     url := Some "https://x/pkg-3.zip";
     rootDirPrefix := Some "pkg-";
     rootDir := Some "pkg";
     targetDirPrefix := Some "pkg-";
     targetDir := None;
     tarRootDirPrefix := None;
     files := None;
     bundle := None |}.

(** A tarball without its version. *)
Definition tar_entry_no_version : DependencyDict :=
  {| version := None;
     downloadFormat := Some "tar";
     url := Some "https://x/pkg-3.tar.gz";
     rootDirPrefix := None;
     rootDir := None;
     targetDirPrefix := Some "pkg-";
     targetDir := None;
     tarRootDirPrefix := Some "pkg-";
     files := None;
     bundle := None |}.

(** The retrieval that [download_files] makes for [filename]. *)
Definition retrieval_of (source_url_root target_dir filename : string) : call :=
  CUrlRetrieve (source_url_root ++ "/" ++ filename)
               (os_path_join target_dir filename).

(** A computation that only adds to the log of calls. *)
Definition appends {W A : Type} (m : M W A) : Prop :=
  forall st, exists post, calls (snd (m st)) = (calls st ++ post)%list.

(** A manifest with a sound entry followed by a tarball without its
    version. *)
Definition manifest_with_bad_entry : DependenciesDict :=
  {| dependencies :=
       [("frontend", [("pkg", example_zip_entry)]);
        ("oppiaTools", [("tool", tar_entry_no_version)])] |}.

(** The state the validator leaves when it rejects [d]: the machine
    and the log of calls as they were, five more lines on the standard
    output. *)
Definition diagnosed {W : Type} (st : state W) (d : DependencyDict)
  (msg last : string) : state W :=
  {| world := world st;
     calls := calls st;
     stdout := (stdout st
                ++ [PStr "------------------------------------------";
                    PStr "There is syntax error in this dependency";
                    PDict d; PStr msg; PStr last])%list |}.

(** The table of the declared format of an entry, if it has both. *)
Definition declared_table (d : DependencyDict)
  : option DownloadFormatToDependenciesKeysDict :=
  match downloadFormat d with
  | Some format => DOWNLOAD_FORMATS_TO_DEPENDENCIES_KEYS format
  | None => None
  end.

(** The exception [validate_dependencies] raises on an entry that has
    no table. *)
Definition format_error (d : DependencyDict) : exn :=
  match downloadFormat d with
  | Some format => KeyError format
  | None => Exception "downloadFormat not specified in %s" d
  end.

(** The directory a zip or tar entry listed under [data] is installed
    in: what the fetcher tests before it downloads. *)
Definition archive_target (data : string) (e : DependencyDict)
  : option string :=
  match TARGET_DOWNLOAD_DIRS data, version e, downloadFormat e with
  | Some D, Some rev, Some format =>
      if String.eqb format _DOWNLOAD_FORMAT_ZIP then
        option_map (os_path_join D)
          (resolve_name (targetDir e) (targetDirPrefix e) rev)
      else if String.eqb format _DOWNLOAD_FORMAT_TAR then
        option_map (fun prefix => os_path_join D (prefix ++ rev))
          (targetDirPrefix e)
      else None
  | _, _, _ => None
  end.

(** The two nested loops of [download_all_dependencies]. *)
Definition fetch_loop (W : Type) (os : Platform W) (m : DependenciesDict)
  : M W unit :=
  for_each (dependencies m) (fun category =>
    for_each (snd category) (fun named =>
      download_dependency W os (fst category) (snd named))).

(** An entry whose format is not one of the three. *)
Definition rar_entry : DependencyDict :=
  {| version := Some "3";
     downloadFormat := Some "rar";
     url := Some "https://x/pkg-3.rar";
     rootDirPrefix := None;
     rootDir := None;
     targetDirPrefix := Some "pkg-";
     targetDir := None;
     tarRootDirPrefix := None;
     files := None;
     bundle := None |}.

(** A sound tarball. *)
Definition example_tar_entry : DependencyDict :=
  {| version := Some "1.2";
     downloadFormat := Some "tar";
     url := Some "https://x/tool-1.2.tar.gz";
     rootDirPrefix := None;
     rootDir := None;
     targetDirPrefix := Some "tool-";
     targetDir := None;
     tarRootDirPrefix := Some "tool-v";
     files := None;
     bundle := None |}.

(** A manifest of two sound archives. *)
Definition sound_manifest : DependenciesDict :=
  {| dependencies :=
       [("frontend", [("pkg", example_zip_entry)]);
        ("oppiaTools", [("tool", example_tar_entry)])] |}.

(** A sound entry listed under a category that has no directory. *)
Definition manifest_unknown_category : DependenciesDict :=
  {| dependencies := [("backend", [("pkg", example_zip_entry)])] |}.

(** The simulated machine with faults injected: the extraction of a
    zip file by path, the extraction of a tarball, or the retrieval of
    one url raise, and leave the machine as it is. *)
Definition faulty_platform (zip_fault tar_fault : option exn)
  (bad_url : string) : Platform (list string) :=
  let base := Sim.platform false "pkg-3" {| dependencies := [] |} in
  {| sys_exists := sys_exists base;
     sys_ensure_directory_exists := sys_ensure_directory_exists base;
     sys_url_retrieve := fun source_url path w =>
       if String.eqb source_url bad_url
       then (Some (LibraryError "URLError"), w)
       else sys_url_retrieve base source_url path w;
     sys_zip_extractall := fun src target w =>
       match zip_fault, src with
       | Some e, ZipPath _ => (Some e, w)
       | _, _ => sys_zip_extractall base src target w
       end;
     sys_tar_extractall := fun path target w =>
       match tar_fault with
       | Some e => (Some e, w)
       | None => sys_tar_extractall base path target w
       end;
     sys_remove := sys_remove base;
     sys_rename := sys_rename base;
     sys_url_open_read := sys_url_open_read base;
     sys_read_file := sys_read_file base;
     sys_json_loads := sys_json_loads base |}.

(** ** Facts about the string operations *)

Lemma endswith_nil (suffix : string) :
  endswith EmptyString suffix = String.eqb EmptyString suffix.
Proof. simpl. destruct suffix; reflexivity. Qed.

Lemma endswith_step (a : ascii) (s suffix : string) :
  endswith (String a s) suffix =
  if String.eqb (String a s) suffix then true else endswith s suffix.
Proof. reflexivity. Qed.

Lemma endswith_refl (s : string) : endswith s s = true.
Proof.
  destruct s; [reflexivity |].
  rewrite endswith_step, String.eqb_refl. reflexivity.
Qed.

Lemma endswith_cons (a : ascii) (s suffix : string) :
  endswith s suffix = true -> endswith (String a s) suffix = true.
Proof.
  intros H. rewrite endswith_step, H.
  destruct (String.eqb (String a s) suffix); reflexivity.
Qed.

Lemma endswith_app (p suffix : string) : endswith (p ++ suffix) suffix = true.
Proof.
  induction p as [| a p IH]; simpl String.append.
  - apply endswith_refl.
  - apply endswith_cons, IH.
Qed.

Lemma endswith_inv (s suffix : string) :
  endswith s suffix = true -> exists p, s = p ++ suffix.
Proof.
  induction s as [| a s IH].
  - rewrite endswith_nil. intros E. apply String.eqb_eq in E.
    exists EmptyString. exact E.
  - rewrite endswith_step.
    destruct (String.eqb_spec (String a s) suffix) as [E | _].
    + intros _. exists EmptyString. exact E.
    + intros H. destruct (IH H) as [p ->]. exists (String a p). reflexivity.
Qed.

(** No string ends both in [.zip] and in [.tar.gz]. *)
Lemma endswith_zip_not_tar (s : string) :
  endswith s ".zip" = true -> endswith s ".tar.gz" = false.
Proof.
  induction s as [| a s IH]; [discriminate |].
  rewrite !endswith_step.
  destruct (String.eqb_spec (String a s) ".zip") as [E | _].
  - intros _. injection E as -> ->. reflexivity.
  - destruct (String.eqb_spec (String a s) ".tar.gz") as [E | _].
    + injection E as _ E. subst s. discriminate.
    + exact IH.
Qed.

Lemma split_last_none (c : ascii) (s : string) :
  contains_char c s = false -> split_last c s = None.
Proof.
  induction s as [| a s IH]; simpl; [reflexivity |].
  destruct (Ascii.eqb a c); [discriminate |].
  intros H. rewrite (IH H). reflexivity.
Qed.

Lemma split_last_app (c : ascii) (b f : string) :
  contains_char c f = false -> split_last c (b ++ String c f) = Some (b, f).
Proof.
  intros H. induction b as [| a b IH]; simpl.
  - rewrite (split_last_none _ _ H), Ascii.eqb_refl. reflexivity.
  - rewrite IH. reflexivity.
Qed.

Lemma split_last_some (c : ascii) (s h t : string) :
  split_last c s = Some (h, t) ->
  s = h ++ String c t /\ contains_char c t = false.
Proof.
  revert h. induction s as [| a s IH]; simpl; [discriminate |].
  intros h. destruct (split_last c s) as [[h' t'] |] eqn:E.
  - intros [= <- <-]. destruct (IH h' eq_refl) as [-> Ht]. split; [reflexivity | exact Ht].
  - destruct (Ascii.eqb_spec a c) as [-> | _]; [| discriminate].
    intros [= <- <-]. split; [reflexivity |].
    clear IH. induction s as [| a' s IH']; simpl in *; [reflexivity |].
    destruct (split_last c s) as [[? ?] |]; [discriminate |].
    destruct (Ascii.eqb a' c); [discriminate |]. apply IH'. reflexivity.
Qed.

Lemma contains_char_app (c : ascii) (b f : string) :
  contains_char c (b ++ String c f) = true.
Proof.
  induction b as [| a b IH]; simpl.
  - rewrite Ascii.eqb_refl. reflexivity.
  - rewrite IH. destruct (Ascii.eqb a c); reflexivity.
Qed.

Lemma contains_char_split (c : ascii) (s : string) :
  contains_char c s = true -> exists h t, split_last c s = Some (h, t).
Proof.
  induction s as [| a s IH]; simpl; [discriminate |].
  destruct (split_last c s) as [[h t] |].
  - intros _. eexists _, _. reflexivity.
  - destruct (Ascii.eqb a c); [intros _; eexists _, _; reflexivity |].
    intros H. destruct (IH H) as (h & t & E). discriminate.
Qed.

Lemma strip_fragment_app (b f : string) :
  contains_char "#" f = false -> strip_fragment (b ++ "#" ++ f) = b.
Proof.
  intros H. unfold strip_fragment, rpartition. simpl String.append.
  rewrite contains_char_app, (split_last_app _ _ _ H). reflexivity.
Qed.

Lemma strip_fragment_no_hash (u : string) :
  contains_char "#" u = false -> strip_fragment u = u.
Proof. intros H. unfold strip_fragment. rewrite H. reflexivity. Qed.

Lemma in_list_In (key : string) (keys : list string) :
  in_list key keys = true <-> In key keys.
Proof.
  unfold in_list. rewrite existsb_exists. split.
  - intros (x & Hx & E). apply String.eqb_eq in E. subst. exact Hx.
  - intros H. exists key. split; [exact H | apply String.eqb_refl].
Qed.

(** ** Facts about the monad *)

Section MonadFacts.

Variable W : Type.

Lemma bind_fst {A B : Type} (m : M W A) (k : A -> M W B) (st : state W) :
  fst (bind m k st) =
  match fst (m st) with
  | Ok a => fst (k a (snd (m st)))
  | Raised e => Raised e
  | Exited n => Exited n
  end.
Proof. unfold bind. destruct (m st) as [[a | e | n] st']; reflexivity. Qed.

Lemma diag_ret {A : Type} (a : A) : diagnostic_only (@ret W A a).
Proof. intros st. simpl. repeat split. discriminate. Qed.

Lemma diag_raise {A : Type} (e : exn) : diagnostic_only (@raise W A e).
Proof. intros st. simpl. repeat split. discriminate. Qed.

Lemma diag_exit {A : Type} : diagnostic_only (@sys_exit W A 1).
Proof. intros st. simpl. repeat split. intros n [= <-]. reflexivity. Qed.

Lemma diag_print_ (x : printed) : diagnostic_only (@print_ W x).
Proof. intros st. simpl. repeat split. discriminate. Qed.

Lemma diag_print (s : string) : diagnostic_only (@print W s).
Proof. apply diag_print_. Qed.

Lemma diag_getitem {A : Type} (key : string) (field : option A) :
  diagnostic_only (@getitem W A key field).
Proof. destruct field; [apply diag_ret | apply diag_raise]. Qed.

Lemma diag_bind {A B : Type} (m : M W A) (k : A -> M W B) :
  diagnostic_only m -> (forall a, diagnostic_only (k a)) ->
  diagnostic_only (bind m k).
Proof.
  intros Hm Hk st. destruct (Hm st) as (Hw & Hc & Hn).
  unfold bind. destruct (m st) as [[a | e | n] st']; simpl in *.
  - destruct (Hk a st') as (Hw' & Hc' & Hn').
    rewrite Hw', Hc'. split; [exact Hw | split; [exact Hc | exact Hn']].
  - split; [exact Hw | split; [exact Hc | discriminate]].
  - split; [exact Hw | split; [exact Hc |]].
    intros n' [= <-]. apply Hn. reflexivity.
Qed.

Lemma diag_for_each {A : Type} (l : list A) (body : A -> M W unit) :
  (forall x, In x l -> diagnostic_only (body x)) ->
  diagnostic_only (for_each l body).
Proof.
  induction l as [| x l IH]; intros H; simpl.
  - apply diag_ret.
  - apply diag_bind.
    + apply H. left. reflexivity.
    + intros _. apply IH. intros y Hy. apply H. right. exact Hy.
Qed.

(** A loop stops at the first element whose body fails. *)
Lemma for_each_fails {A : Type} (l : list A) (body : A -> M W unit) (x : A) :
  In x l ->
  (forall st, fst (body x st) <> Ok tt) ->
  forall st, fst (for_each l body st) <> Ok tt.
Proof.
  induction l as [| y l IH]; intros Hin Hx st; [destruct Hin |].
  simpl. rewrite bind_fst.
  destruct (fst (body y st)) as [[] | e | n] eqn:E; try discriminate.
  destruct Hin as [-> | Hin].
  - destruct (Hx st E).
  - apply IH; assumption.
Qed.

Lemma bind_ok_inv {A B : Type} (m : M W A) (k : A -> M W B) (st : state W)
  (b : B) :
  fst (bind m k st) = Ok b ->
  exists a, fst (m st) = Ok a /\ bind m k st = k a (snd (m st)).
Proof.
  unfold bind. destruct (m st) as [[a | e | n] st']; simpl; try discriminate.
  intros _. exists a. split; reflexivity.
Qed.

Lemma appends_ret {A : Type} (a : A) : appends (@ret W A a).
Proof. intros st. exists []. simpl. rewrite app_nil_r. reflexivity. Qed.

Lemma appends_raise {A : Type} (e : exn) : appends (@raise W A e).
Proof. intros st. exists []. simpl. rewrite app_nil_r. reflexivity. Qed.

Lemma appends_print (s : string) : appends (@print W s).
Proof. intros st. exists []. simpl. rewrite app_nil_r. reflexivity. Qed.

Lemma appends_bind {A B : Type} (m : M W A) (k : A -> M W B) :
  appends m -> (forall a, appends (k a)) -> appends (bind m k).
Proof.
  intros Hm Hk st. destruct (Hm st) as [post Hpost].
  unfold bind. destruct (m st) as [[a | e | n] st']; simpl in *.
  - destruct (Hk a st') as [post' Hpost']. exists (post ++ post')%list.
    rewrite Hpost', Hpost, app_assoc. reflexivity.
  - exists post. exact Hpost.
  - exists post. exact Hpost.
Qed.

Lemma appends_try_except {A : Type} (body handler : M W A) :
  appends body -> appends handler -> appends (try_except body handler).
Proof.
  intros Hb Hh st. destruct (Hb st) as [post Hpost].
  unfold try_except. destruct (body st) as [[a | e | n] st']; simpl in *.
  - exists post. exact Hpost.
  - destruct (is_Exception e).
    + destruct (Hh st') as [post' Hpost']. exists (post ++ post')%list.
      rewrite Hpost', Hpost, app_assoc. reflexivity.
    + exists post. exact Hpost.
  - exists post. exact Hpost.
Qed.

End MonadFacts.

Create HintDb diag.
#[export] Hint Resolve diag_ret diag_raise diag_exit diag_print_ diag_print
  diag_getitem : diag.

Ltac diag :=
  repeat first
    [ solve [auto with diag]
    | apply diag_bind; [| intros ?]
    | match goal with
      | |- diagnostic_only (if ?b then _ else _) => destruct b
      | |- diagnostic_only (match ?l with [] => _ | _ :: _ => _ end) =>
          destruct l
      end ].

(** ** The validator *)

Section ValidatorFacts.

Variable W : Type.

Lemma check_mandatory_keys_fst (d : DependencyDict)
  (keys mandatory : list string) (st : state W) :
  fst (check_mandatory_keys W d keys mandatory st) =
  if all_mandatory_present keys mandatory then Ok tt else Exited 1.
Proof.
  unfold check_mandatory_keys, all_mandatory_present.
  revert st. induction mandatory as [| key rest IH]; intros st; [reflexivity |].
  simpl for_each. simpl forallb. rewrite bind_fst.
  destruct (in_list key keys); simpl.
  - apply IH.
  - reflexivity.
Qed.

Lemma check_optional_key_pairs_fst (d : DependencyDict)
  (keys : list string) (pairs : list (list string)) (st : state W) :
  fst (check_optional_key_pairs W d keys pairs st) =
  if forallb (exactly_one_present keys) pairs then Ok tt else Exited 1.
Proof.
  unfold check_optional_key_pairs.
  revert st. induction pairs as [| optional_keys rest IH]; intros st;
    [reflexivity |].
  simpl for_each. simpl forallb. rewrite bind_fst.
  unfold exactly_one_present at 1.
  destruct (Nat.eqb _ 1); simpl.
  - apply IH.
  - reflexivity.
Qed.

Lemma diag_check_mandatory_keys (d : DependencyDict)
  (keys mandatory : list string) :
  diagnostic_only (check_mandatory_keys W d keys mandatory).
Proof. apply diag_for_each. intros key _. diag. Qed.

Lemma diag_check_optional_key_pairs (d : DependencyDict)
  (keys : list string) (pairs : list (list string)) :
  diagnostic_only (check_optional_key_pairs W d keys pairs).
Proof. apply diag_for_each. intros key _. diag. Qed.

#[local] Hint Resolve diag_check_mandatory_keys diag_check_optional_key_pairs
  : diag.

Lemma diag_test_dependencies_syntax (ty : string) (d : DependencyDict) :
  diagnostic_only (test_dependencies_syntax W ty d).
Proof.
  unfold test_dependencies_syntax. diag.
Qed.

#[local] Hint Resolve diag_test_dependencies_syntax : diag.

Lemma diag_validate_dependency (d : DependencyDict) :
  diagnostic_only (validate_dependency W d).
Proof.
  unfold validate_dependency. diag.
Qed.

(** The validator ends as [syntax_verdict] says, in every state. *)
Lemma test_dependencies_syntax_verdict (ty : string) (d : DependencyDict)
  (st : state W) :
  fst (test_dependencies_syntax W ty d st) = syntax_verdict ty d.
Proof.
  unfold test_dependencies_syntax, syntax_verdict.
  destruct (DOWNLOAD_FORMATS_TO_DEPENDENCIES_KEYS ty) as [table |];
    [| reflexivity].
  simpl getitem. rewrite bind_fst. cbn [ret fst snd].
  rewrite bind_fst, check_mandatory_keys_fst.
  destruct (all_mandatory_present _ _); [| reflexivity].
  simpl negb. cbv iota.
  rewrite bind_fst.
  assert (Hpairs : forall st',
    fst (match optional_key_pairs table with
         | [] => ret tt
         | _ :: _ => check_optional_key_pairs W d (dict_keys d)
                       (optional_key_pairs table)
         end st') =
    if forallb (exactly_one_present (dict_keys d)) (optional_key_pairs table)
    then Ok tt else Exited 1).
  { intros st'. destruct (optional_key_pairs table) eqn:E; [reflexivity |].
    apply check_optional_key_pairs_fst. }
  rewrite Hpairs.
  destruct (forallb _ _); [| reflexivity].
  simpl negb. cbv iota.
  destruct (url d) as [u |]; [| reflexivity].
  simpl getitem. rewrite bind_fst. cbn [ret fst snd].
  destruct (url_mismatch ty (strip_fragment u)); reflexivity.
Qed.

End ValidatorFacts.

(** ** Keys of a dependency dictionary *)

Lemma in_list_app (key : string) (l1 l2 : list string) :
  in_list key (l1 ++ l2) = (in_list key l1 || in_list key l2)%bool.
Proof. apply existsb_app. Qed.

Lemma in_list_key_if_present {A : Type} (key name : string) (f : option A) :
  in_list key (key_if_present name f) = (String.eqb key name && is_some f)%bool.
Proof.
  destruct f; simpl.
  - rewrite orb_false_r, andb_true_r. reflexivity.
  - rewrite andb_false_r. reflexivity.
Qed.

Lemma in_list_dict_keys (key : string) (d : DependencyDict) :
  in_list key (dict_keys d) =
  (String.eqb key "version" && is_some (version d)
   || (String.eqb key "downloadFormat" && is_some (downloadFormat d)
   || (String.eqb key "url" && is_some (url d)
   || (String.eqb key "rootDirPrefix" && is_some (rootDirPrefix d)
   || (String.eqb key "rootDir" && is_some (rootDir d)
   || (String.eqb key "targetDirPrefix" && is_some (targetDirPrefix d)
   || (String.eqb key "targetDir" && is_some (targetDir d)
   || (String.eqb key "tarRootDirPrefix" && is_some (tarRootDirPrefix d)
   || (String.eqb key "files" && is_some (files d)
   || String.eqb key "bundle" && is_some (bundle d))))))))))%bool.
Proof.
  unfold dict_keys. rewrite !in_list_app, !in_list_key_if_present. reflexivity.
Qed.

Ltac field_key :=
  rewrite in_list_dict_keys; simpl;
  rewrite ?orb_false_r; reflexivity.

Lemma in_keys_version d : in_list "version" (dict_keys d) = is_some (version d).
Proof. field_key. Qed.
Lemma in_keys_downloadFormat d :
  in_list "downloadFormat" (dict_keys d) = is_some (downloadFormat d).
Proof. field_key. Qed.
Lemma in_keys_url d : in_list "url" (dict_keys d) = is_some (url d).
Proof. field_key. Qed.
Lemma in_keys_rootDirPrefix d :
  in_list "rootDirPrefix" (dict_keys d) = is_some (rootDirPrefix d).
Proof. field_key. Qed.
Lemma in_keys_rootDir d : in_list "rootDir" (dict_keys d) = is_some (rootDir d).
Proof. field_key. Qed.
Lemma in_keys_targetDirPrefix d :
  in_list "targetDirPrefix" (dict_keys d) = is_some (targetDirPrefix d).
Proof. field_key. Qed.
Lemma in_keys_targetDir d :
  in_list "targetDir" (dict_keys d) = is_some (targetDir d).
Proof. field_key. Qed.
Lemma in_keys_tarRootDirPrefix d :
  in_list "tarRootDirPrefix" (dict_keys d) = is_some (tarRootDirPrefix d).
Proof. field_key. Qed.
Lemma in_keys_files d : in_list "files" (dict_keys d) = is_some (files d).
Proof. field_key. Qed.

Create Rewrite HintDb keys.
#[export] Hint Rewrite in_keys_version in_keys_downloadFormat in_keys_url
  in_keys_rootDirPrefix in_keys_rootDir in_keys_targetDirPrefix
  in_keys_targetDir in_keys_tarRootDirPrefix in_keys_files : keys.

(** ** Validation of one entry *)

Section EntryValidation.

Variable W : Type.

Lemma validate_dependency_fst (d : DependencyDict) (ty : string)
  (st : state W) :
  downloadFormat d = Some ty ->
  fst (validate_dependency W d st) = syntax_verdict ty d.
Proof.
  intros H. unfold validate_dependency.
  rewrite in_keys_downloadFormat, H. cbn [is_some negb getitem].
  rewrite bind_fst. cbn [ret fst snd].
  rewrite bind_fst. cbn [ret fst snd].
  apply test_dependencies_syntax_verdict.
Qed.

Lemma validate_dependency_no_format (d : DependencyDict) (st : state W) :
  downloadFormat d = None ->
  fst (validate_dependency W d st) =
  Raised (Exception "downloadFormat not specified in %s" d).
Proof.
  intros H. unfold validate_dependency.
  rewrite in_keys_downloadFormat, H. reflexivity.
Qed.

Lemma check_optional_key_pairs_ok (d : DependencyDict) (keys : list string)
  (pairs : list (list string)) (st : state W) :
  (forall pair, In pair pairs ->
     List.length (optional_keys_in_dict pair keys) = 1) ->
  check_optional_key_pairs W d keys pairs st = (Ok tt, st).
Proof.
  unfold check_optional_key_pairs.
  induction pairs as [| pair rest IH]; intros H; [reflexivity |].
  simpl for_each. unfold bind at 1.
  rewrite (H pair (or_introl eq_refl)). simpl.
  apply IH. intros p Hp. apply H. right. exact Hp.
Qed.

Lemma forallb_exactly_one_false (keys : list string)
  (pairs : list (list string)) (pair : list string) :
  In pair pairs ->
  List.length (optional_keys_in_dict pair keys) <> 1 ->
  forallb (exactly_one_present keys) pairs = false.
Proof.
  intros Hin Hlen.
  destruct (forallb (exactly_one_present keys) pairs) eqn:E; [| reflexivity].
  rewrite forallb_forall in E. specialize (E pair Hin).
  unfold exactly_one_present in E. apply Nat.eqb_eq in E. contradiction.
Qed.

Lemma syntax_verdict_bad_pair (ty : string)
  (table : DownloadFormatToDependenciesKeysDict) (d : DependencyDict) :
  DOWNLOAD_FORMATS_TO_DEPENDENCIES_KEYS ty = Some table ->
  forallb (exactly_one_present (dict_keys d)) (optional_key_pairs table) = false ->
  syntax_verdict ty d = Exited 1.
Proof.
  intros Ht Hp. unfold syntax_verdict. rewrite Ht, Hp.
  destruct (all_mandatory_present _ _); reflexivity.
Qed.

Lemma syntax_verdict_missing_key (ty : string)
  (table : DownloadFormatToDependenciesKeysDict) (d : DependencyDict) :
  DOWNLOAD_FORMATS_TO_DEPENDENCIES_KEYS ty = Some table ->
  all_mandatory_present (dict_keys d) (mandatory_keys table) = false ->
  syntax_verdict ty d = Exited 1.
Proof. intros Ht Hm. unfold syntax_verdict. rewrite Ht, Hm. reflexivity. Qed.

Lemma syntax_verdict_checked (ty : string) (d : DependencyDict) (u : string) :
  has_mandatory_keys ty d = true ->
  optional_pairs_ok ty d = true ->
  url d = Some u ->
  syntax_verdict ty d =
  if url_mismatch ty (strip_fragment u) then Exited 1 else Ok tt.
Proof.
  unfold has_mandatory_keys, optional_pairs_ok, syntax_verdict.
  destruct (DOWNLOAD_FORMATS_TO_DEPENDENCIES_KEYS ty) as [table |];
    [| discriminate].
  intros -> -> ->. reflexivity.
Qed.

Lemma syntax_verdict_mismatch (ty : string) (d : DependencyDict) (u : string) :
  DOWNLOAD_FORMATS_TO_DEPENDENCIES_KEYS ty <> None ->
  url d = Some u ->
  url_mismatch ty (strip_fragment u) = true ->
  syntax_verdict ty d = Exited 1.
Proof.
  unfold syntax_verdict.
  destruct (DOWNLOAD_FORMATS_TO_DEPENDENCIES_KEYS ty) as [table |];
    [| intros H; destruct (H eq_refl)].
  intros _ -> ->.
  destruct (all_mandatory_present _ _); [| reflexivity].
  destruct (forallb _ _); reflexivity.
Qed.

End EntryValidation.

(** C1, as amended.  A [files] entry that has all its mandatory keys
    passes validation exactly when its url, without its fragment, ends
    neither in [.zip] nor in [.tar.gz]; otherwise the validator exits
    with status 1. *)
Theorem files_entry_validation (W : Type) (d : DependencyDict) (u : string)
  (st : state W) :
  has_mandatory_keys "files" d = true ->
  url d = Some u ->
  fst (test_dependencies_syntax W "files" d st) =
  if (endswith (strip_fragment u) ".zip"
      || endswith (strip_fragment u) ".tar.gz")%bool
  then Exited 1 else Ok tt.
Proof.
  intros Hk Hu.
  rewrite test_dependencies_syntax_verdict.
  rewrite (syntax_verdict_checked "files" d u Hk eq_refl Hu).
  unfold url_mismatch. simpl.
  destruct (endswith (strip_fragment u) ".zip"),
           (endswith (strip_fragment u) ".tar.gz"); reflexivity.
Qed.

Lemma files_entry_validation_witness :
  has_mandatory_keys "files" files_entry_plain_url = true /\
  fst (test_dependencies_syntax (list string) "files" files_entry_plain_url
         (Sim.initial [])) = Ok tt.
Proof.
  split; [reflexivity |].
  exact (files_entry_validation (list string) files_entry_plain_url
           "https://x/release" (Sim.initial []) eq_refl eq_refl).
Defined.

(** C1 fails as stated: a [files] entry with all its mandatory keys
    whose url ends in [.zip] is rejected with exit status 1. *)
Lemma files_entry_zip_url_rejected :
  downloadFormat files_entry_zip_url = Some "files" /\
  has_mandatory_keys "files" files_entry_zip_url = true /\
  fst (test_dependencies_syntax (list string) "files" files_entry_zip_url
         (Sim.initial [])) = Exited 1 /\
  exit_status (fst (validate_dependency (list string) files_entry_zip_url
                      (Sim.initial []))) = 1%Z.
Proof. repeat split. Qed.

(** C2, as amended.  When the url of an entry, without its last ['#']
    and what follows, does not end in [.zip] and the declared format is
    [zip], or does not end in [.tar.gz] and the declared format is
    [tar], the validator exits with status 1. *)
Theorem archive_url_suffix_enforced (W : Type) (ty : string)
  (d : DependencyDict) (u : string) (st : state W) :
  url d = Some u ->
  (ty = "zip" /\ endswith (strip_fragment u) ".zip" = false) \/
  (ty = "tar" /\ endswith (strip_fragment u) ".tar.gz" = false) ->
  fst (test_dependencies_syntax W ty d st) = Exited 1 /\
  (downloadFormat d = Some ty ->
   fst (validate_dependency W d st) = Exited 1).
Proof.
  intros Hu Hty.
  assert (Hv : syntax_verdict ty d = Exited 1).
  { apply (syntax_verdict_mismatch ty d u); [| exact Hu |].
    - destruct Hty as [[-> _] | [-> _]]; discriminate.
    - unfold url_mismatch.
      destruct Hty as [[-> He] | [-> He]]; rewrite He; simpl;
        rewrite ?orb_true_r; reflexivity. }
  split.
  - rewrite test_dependencies_syntax_verdict. exact Hv.
  - intros Hf. rewrite (validate_dependency_fst W d ty st Hf). exact Hv.
Qed.

Lemma archive_url_suffix_enforced_witness :
  fst (test_dependencies_syntax (list string) "zip" zip_entry_tar_url
         (Sim.initial [])) = Exited 1.
Proof.
  refine (proj1 (archive_url_suffix_enforced (list string) "zip"
                   zip_entry_tar_url "https://x/pkg-3.tar.gz" (Sim.initial [])
                   _ _)).
  - reflexivity.
  - left. split; reflexivity.
Defined.

(** C2 fails as stated: the url of this [zip] entry does not end in
    [.zip], and the entry passes validation. *)
Lemma zip_entry_with_fragment_accepted :
  downloadFormat zip_entry_with_fragment = Some "zip" /\
  url zip_entry_with_fragment = Some "https://x/pkg-3.zip#sha1" /\
  endswith "https://x/pkg-3.zip#sha1" ".zip" = false /\
  test_dependencies_syntax (list string) "zip" zip_entry_with_fragment
    (Sim.initial []) = (Ok tt, Sim.initial []) /\
  exit_status (fst (validate_dependency (list string) zip_entry_with_fragment
                      (Sim.initial []))) = 0%Z.
Proof. repeat split. Qed.

(** C4.  Whenever some optional key pair of the declared format does
    not have exactly one member among the keys of the entry, the
    validator exits with status 1; when every pair has exactly one, the
    check of the pairs passes and prints nothing.  For [zip] the pairs
    are [rootDir]/[rootDirPrefix] and [targetDir]/[targetDirPrefix]. *)
Theorem optional_key_pairs_enforced (W : Type) (ty : string)
  (table : DownloadFormatToDependenciesKeysDict) (d : DependencyDict)
  (st : state W) :
  DOWNLOAD_FORMATS_TO_DEPENDENCIES_KEYS ty = Some table ->
  ((exists pair, In pair (optional_key_pairs table) /\
      List.length (optional_keys_in_dict pair (dict_keys d)) <> 1) ->
   fst (test_dependencies_syntax W ty d st) = Exited 1) /\
  ((forall pair, In pair (optional_key_pairs table) ->
      List.length (optional_keys_in_dict pair (dict_keys d)) = 1) ->
   check_optional_key_pairs W d (dict_keys d) (optional_key_pairs table) st
   = (Ok tt, st)) /\
  (ty = "zip" ->
   is_some (rootDir d) = is_some (rootDirPrefix d) \/
   is_some (targetDir d) = is_some (targetDirPrefix d) ->
   fst (test_dependencies_syntax W ty d st) = Exited 1).
Proof.
  intros Ht. split; [| split].
  - intros (pair & Hin & Hlen).
    rewrite test_dependencies_syntax_verdict.
    apply (syntax_verdict_bad_pair ty table d Ht).
    apply (forallb_exactly_one_false _ _ pair Hin Hlen).
  - apply check_optional_key_pairs_ok.
  - intros -> Hor.
    rewrite test_dependencies_syntax_verdict.
    apply (syntax_verdict_bad_pair "zip" _ d eq_refl).
    simpl optional_key_pairs.
    unfold exactly_one_present, optional_keys_in_dict.
    simpl forallb. simpl filter. autorewrite with keys.
    destruct (rootDir d), (rootDirPrefix d), (targetDir d), (targetDirPrefix d);
      simpl in *; destruct Hor; try discriminate; reflexivity.
Qed.

Lemma optional_key_pairs_enforced_witness :
  fst (test_dependencies_syntax (list string) "zip" zip_entry_both_roots
         (Sim.initial [])) = Exited 1.
Proof.
  refine (proj2 (proj2 (optional_key_pairs_enforced (list string) "zip" _
                          zip_entry_both_roots (Sim.initial []) eq_refl))
            eq_refl _).
  left. reflexivity.
Defined.

(** C10.  When the url of an entry has a ['#'], the check of the suffix
    looks at what precedes the last ['#']: the url is [base # fragment]
    with no ['#'] in [fragment], and an entry that passes the checks of
    the keys is accepted or rejected on [base] alone.  So a [zip] entry
    whose url is [<base>.zip#<fragment>] is accepted, and so is a [tar]
    entry whose url is [<base>.tar.gz#<fragment>]. *)
Theorem url_fragment_ignored (W : Type) (ty : string) (d : DependencyDict)
  (u : string) (st : state W) :
  url d = Some u ->
  contains_char "#" u = true ->
  has_mandatory_keys ty d = true ->
  optional_pairs_ok ty d = true ->
  exists base fragment,
    u = base ++ "#" ++ fragment /\
    contains_char "#" fragment = false /\
    fst (test_dependencies_syntax W ty d st) =
      (if url_mismatch ty base then Exited 1 else Ok tt) /\
    (ty = "zip" -> endswith base ".zip" = true ->
     fst (test_dependencies_syntax W ty d st) = Ok tt) /\
    (ty = "tar" -> endswith base ".tar.gz" = true ->
     fst (test_dependencies_syntax W ty d st) = Ok tt).
Proof.
  intros Hu Hc Hk Hp.
  destruct (contains_char_split _ _ Hc) as (base & fragment & E).
  destruct (split_last_some _ _ _ _ E) as [Heq Hfrag].
  assert (Hstrip : strip_fragment u = base).
  { unfold strip_fragment, rpartition. rewrite Hc, E. reflexivity. }
  assert (Hv : fst (test_dependencies_syntax W ty d st) =
               if url_mismatch ty base then Exited 1 else Ok tt).
  { rewrite test_dependencies_syntax_verdict,
      (syntax_verdict_checked ty d u Hk Hp Hu), Hstrip. reflexivity. }
  exists base, fragment. repeat split; try assumption.
  - intros -> Hz. rewrite Hv. unfold url_mismatch.
    rewrite Hz, (endswith_zip_not_tar _ Hz). reflexivity.
  - intros -> Ht. rewrite Hv. unfold url_mismatch. rewrite Ht.
    destruct (endswith base ".zip") eqn:Hz; [| reflexivity].
    rewrite (endswith_zip_not_tar _ Hz) in Ht. discriminate.
Qed.

Lemma url_fragment_ignored_witness :
  exists base fragment,
    "https://x/pkg-3.zip#sha1" = base ++ "#" ++ fragment /\
    contains_char "#" fragment = false /\
    fst (test_dependencies_syntax (list string) "zip" zip_entry_with_fragment
           (Sim.initial [])) =
      (if url_mismatch "zip" base then Exited 1 else Ok tt) /\
    ("zip" = "zip" -> endswith base ".zip" = true ->
     fst (test_dependencies_syntax (list string) "zip" zip_entry_with_fragment
            (Sim.initial [])) = Ok tt) /\
    ("zip" = "tar" -> endswith base ".tar.gz" = true ->
     fst (test_dependencies_syntax (list string) "zip" zip_entry_with_fragment
            (Sim.initial [])) = Ok tt).
Proof.
  apply (url_fragment_ignored (list string) "zip" zip_entry_with_fragment
           "https://x/pkg-3.zip#sha1" (Sim.initial []));
    reflexivity.
Defined.

(** ** The fetchers *)

Section Fetchers.

Variable W : Type.
Variable os : Platform W.

(** C5.  When [target_parent_dir/target_root_name] exists, the zip and
    the tar fetchers return at once: the machine, the log of calls to
    collaborators (so no network call, no file written) and the
    standard output are what they were. *)
Theorem fetch_skipped_when_target_exists
  (source_url target_parent_dir root_name target_root_name : string)
  (st : state W) :
  sys_exists os (os_path_join target_parent_dir target_root_name) (world st)
  = true ->
  download_and_unzip_files W os source_url target_parent_dir root_name
    target_root_name st = (Ok tt, st) /\
  download_and_untar_files W os source_url target_parent_dir root_name
    target_root_name st = (Ok tt, st).
Proof.
  intros H.
  unfold download_and_unzip_files, download_and_untar_files, bind,
    os_path_exists.
  rewrite H. split; reflexivity.
Qed.

Section FileList.

Variables source_url_root target_dir : string.

Let path_of (filename : string) : string := os_path_join target_dir filename.

Let loop (l : list string) : M W unit :=
  for_each l (fun filename =>
    found <- os_path_exists W os (os_path_join target_dir filename) ;;
    if negb found then
      print ("Downloading file " ++ filename ++ " to " ++ target_dir ++ " ...") ;;
      common_url_retrieve W os
        (source_url_root ++ "/" ++ filename)
        (os_path_join target_dir filename) ;;
      print ("Download of " ++ filename ++ " succeeded.")
    else ret tt).

Hypothesis retrieve_succeeds : forall u p w,
  fst (sys_url_retrieve os u p w) = None.
Hypothesis retrieve_creates : forall u p w,
  sys_exists os p (snd (sys_url_retrieve os u p w)) = true.
Hypothesis retrieve_frame : forall u p q w,
  q <> p ->
  sys_exists os q (snd (sys_url_retrieve os u p w)) = sys_exists os q w.

Lemma loop_present (f : string) (l : list string) (st : state W) :
  sys_exists os (path_of f) (world st) = true ->
  loop (f :: l) st = loop l st.
Proof.
  intros H. unfold loop. simpl for_each. unfold bind at 1.
  unfold bind at 1. unfold os_path_exists. fold (path_of f).
  rewrite H. reflexivity.
Qed.

Lemma loop_missing (f : string) (l : list string) (st : state W) :
  sys_exists os (path_of f) (world st) = false ->
  exists st1,
    loop (f :: l) st = loop l st1 /\
    world st1 = snd (sys_url_retrieve os (source_url_root ++ "/" ++ f)
                       (path_of f) (world st)) /\
    calls st1 = (calls st ++ [retrieval_of source_url_root target_dir f])%list.
Proof.
  intros H. unfold loop. simpl for_each. unfold bind at 1.
  unfold bind at 1. unfold os_path_exists. fold (path_of f).
  rewrite H. cbn [negb].
  unfold bind, print, print_, common_url_retrieve, action. cbn [fst snd world calls stdout].
  fold (path_of f). rewrite retrieve_succeeds.
  eexists. split; [reflexivity |]. split; reflexivity.
Qed.

Lemma loop_spec (l : list string) :
  forall st : state W,
  fst (loop l st) = Ok tt /\
  exists fetched : list string,
    calls (snd (loop l st)) =
      (calls st ++ map (retrieval_of source_url_root target_dir) fetched)%list /\
    NoDup (map path_of fetched) /\
    (forall f, In f fetched -> In f l) /\
    (forall p, In p (map path_of fetched) <->
               In p (map path_of l) /\ sys_exists os p (world st) = false) /\
    (forall q, sys_exists os q (world (snd (loop l st))) = true <->
               sys_exists os q (world st) = true \/ In q (map path_of fetched)).
Proof.
  induction l as [| f l IH]; intros st.
  - split; [reflexivity |]. exists []. simpl. rewrite app_nil_r.
    repeat split; try tauto; try constructor.
  - destruct (sys_exists os (path_of f) (world st)) eqn:E.
    + rewrite (loop_present f l st E).
      destruct (IH st) as (Hok & fetched & Hc & Hnd & Hin & Hp & Hw).
      split; [exact Hok |]. exists fetched.
      repeat split; try assumption.
      * intros x Hx. right. apply Hin, Hx.
      * right. apply Hp, H.
      * apply Hp, H.
      * intros [[<- | Hl] Hq]; [congruence |]. apply Hp. split; assumption.
      * apply Hw.
      * apply Hw.
    + destruct (loop_missing f l st E) as (st1 & Hrun & Hw1 & Hc1).
      rewrite Hrun.
      destruct (IH st1) as (Hok & fetched & Hc & Hnd & Hin & Hp & Hw).
      assert (Hnew : sys_exists os (path_of f) (world st1) = true).
      { rewrite Hw1. apply retrieve_creates. }
      assert (Hold : forall q, q <> path_of f ->
                sys_exists os q (world st1) = sys_exists os q (world st)).
      { intros q Hq. rewrite Hw1. apply retrieve_frame, Hq. }
      split; [exact Hok |]. exists (f :: fetched).
      split; [| split; [| split; [| split]]].
      * rewrite Hc, Hc1, <- app_assoc. reflexivity.
      * simpl. constructor; [| exact Hnd].
        intros Hf. apply Hp in Hf. destruct Hf as [_ Hf]. congruence.
      * intros x [<- | Hx]; [left; reflexivity | right; apply Hin, Hx].
      * intros p. simpl. split.
        -- intros [<- | Hpf]; [split; [left; reflexivity | exact E] |].
           apply Hp in Hpf. destruct Hpf as [Hl Hq].
           split; [right; exact Hl |].
           rewrite <- Hold; [exact Hq |]. congruence.
        -- intros [[<- | Hl] Hq]; [left; reflexivity |].
           destruct (string_dec p (path_of f)) as [-> | Hne];
             [left; reflexivity | right].
           apply Hp. split; [exact Hl |]. rewrite Hold; assumption.
      * intros q. rewrite Hw. simpl.
        destruct (string_dec q (path_of f)) as [-> | Hne].
        -- split; [intros _; right; left; reflexivity | intros _; left; exact Hnew].
        -- rewrite (Hold q Hne). split.
           ++ intros [H | H]; [left; exact H | right; right; exact H].
           ++ intros [H | [H | H]]; [left; exact H | congruence | right; exact H].
Qed.

End FileList.

(** C6.  On a machine where creating the target directory and
    retrieving a url succeed, and where a retrieval creates its
    destination and nothing else among the paths looked at,
    [download_files] ends normally after one call that creates the
    directory and one retrieval per missing file: the files [fetched]
    are files of the list that were missing, every missing file of the
    list is fetched, none is fetched twice, each is retrieved from
    [source_url_root/filename] into [target_dir/filename], and at the
    end every file of the list exists. *)
Theorem download_files_fetches_missing
  (source_url_root target_dir : string) (source_filenames : list string)
  (st : state W) :
  fst (sys_ensure_directory_exists os target_dir (world st)) = None ->
  (forall f, In f source_filenames ->
     sys_exists os (os_path_join target_dir f)
       (snd (sys_ensure_directory_exists os target_dir (world st)))
     = sys_exists os (os_path_join target_dir f) (world st)) ->
  (forall u p w, fst (sys_url_retrieve os u p w) = None) ->
  (forall u p w, sys_exists os p (snd (sys_url_retrieve os u p w)) = true) ->
  (forall u p q w, q <> p ->
     sys_exists os q (snd (sys_url_retrieve os u p w)) = sys_exists os q w) ->
  let r := download_files W os source_url_root target_dir source_filenames st in
  fst r = Ok tt /\
  exists fetched : list string,
    calls (snd r) =
      (calls st ++ CEnsureDirectoryExists target_dir
         :: map (retrieval_of source_url_root target_dir) fetched)%list /\
    NoDup (map (os_path_join target_dir) fetched) /\
    (forall f, In f fetched ->
       In f source_filenames /\
       sys_exists os (os_path_join target_dir f) (world st) = false) /\
    (forall f, In f source_filenames ->
       sys_exists os (os_path_join target_dir f) (world st) = false ->
       In (os_path_join target_dir f)
          (map (os_path_join target_dir) fetched)) /\
    (forall f, In f source_filenames ->
       sys_exists os (os_path_join target_dir f) (world (snd r)) = true).
Proof.
  intros Hens Hframe Hok Hcreate Hother r.
  set (st1 := {| world := snd (sys_ensure_directory_exists os target_dir (world st));
                 calls := (calls st ++ [CEnsureDirectoryExists target_dir])%list;
                 stdout := stdout st |}).
  assert (Hr : r = for_each source_filenames (fun filename =>
            found <- os_path_exists W os (os_path_join target_dir filename) ;;
            if negb found then
              print ("Downloading file " ++ filename ++ " to " ++ target_dir
                     ++ " ...") ;;
              common_url_retrieve W os
                (source_url_root ++ "/" ++ filename)
                (os_path_join target_dir filename) ;;
              print ("Download of " ++ filename ++ " succeeded.")
            else ret tt) st1).
  { unfold r, download_files. unfold bind at 1.
    unfold common_ensure_directory_exists, action. rewrite Hens. reflexivity. }
  destruct (loop_spec source_url_root target_dir Hok Hcreate Hother
              source_filenames st1)
    as (Hfst & fetched & Hc & Hnd & Hin & Hp & Hw).
  rewrite <- Hr in Hfst, Hc, Hw.
  split; [exact Hfst |]. exists fetched.
  split; [| split; [exact Hnd | split; [| split]]].
  - rewrite Hc. simpl calls. rewrite <- app_assoc. reflexivity.
  - intros f Hf. split; [apply Hin, Hf |].
    rewrite <- (Hframe f (Hin f Hf)).
    apply (Hp (os_path_join target_dir f)).
    apply in_map with (f := os_path_join target_dir) in Hf. exact Hf.
  - intros f Hf Hmiss. apply Hp. split.
    + apply in_map, Hf.
    + simpl world. rewrite (Hframe f Hf). exact Hmiss.
  - intros f Hf. apply Hw.
    destruct (sys_exists os (os_path_join target_dir f) (world st1)) eqn:E;
      [left; reflexivity | right].
    apply Hp. split; [apply in_map, Hf | exact E].
Qed.

Lemma action_world (c : call) (f : W -> option exn * W) (st : state W) :
  world (snd (action W c f st)) = snd (f (world st)).
Proof. unfold action. destruct (fst (f (world st))); reflexivity. Qed.

Lemma action_calls (c : call) (f : W -> option exn * W) (st : state W) :
  calls (snd (action W c f st)) = (calls st ++ [c])%list.
Proof. unfold action. destruct (fst (f (world st))); reflexivity. Qed.

Lemma appends_action (c : call) (f : W -> option exn * W) :
  appends (action W c f).
Proof. intros st. exists [c]. apply action_calls. Qed.

Lemma appends_os_path_exists (path : string) :
  appends (os_path_exists W os path).
Proof. intros st. exists []. simpl. rewrite app_nil_r. reflexivity. Qed.

Lemma appends_url_open_read (req : request) : appends (url_open_read W os req).
Proof.
  intros st. exists [CUrlOpenRead req]. unfold url_open_read.
  destruct (fst (sys_url_open_read os req (world st))); reflexivity.
Qed.

Section ZipFetcher.

Variables source_url target_parent_dir zip_root_name target_root_name : string.

Hypothesis remove_removes : forall w,
  fst (sys_remove os TMP_UNZIP_PATH w) = None ->
  sys_exists os TMP_UNZIP_PATH (snd (sys_remove os TMP_UNZIP_PATH w)) = false.
Hypothesis open_frame : forall req w,
  sys_exists os TMP_UNZIP_PATH w = false ->
  sys_exists os TMP_UNZIP_PATH (snd (sys_url_open_read os req w)) = false.
Hypothesis extract_frame : forall content w,
  sys_exists os TMP_UNZIP_PATH w = false ->
  sys_exists os TMP_UNZIP_PATH
    (snd (sys_zip_extractall os (ZipBytes content) target_parent_dir w))
  = false.

Let fallback : M W unit :=
  tmp_found <- os_path_exists W os TMP_UNZIP_PATH ;;
  (if tmp_found then os_remove W os TMP_UNZIP_PATH else ret tt) ;;
  file_stream <- url_open_read W os
                   {| req_url := source_url;
                      req_headers := [("User-agent", "python")] |} ;;
  zip_extractall W os (ZipBytes file_stream) target_parent_dir.

Let first_attempt : M W unit :=
  zip_extractall W os (ZipPath TMP_UNZIP_PATH) target_parent_dir ;;
  os_remove W os TMP_UNZIP_PATH.

Lemma fallback_leaves_no_tmp (st : state W) :
  fst (fallback st) = Ok tt ->
  sys_exists os TMP_UNZIP_PATH (world (snd (fallback st))) = false.
Proof.
  unfold fallback, bind, os_path_exists, os_remove, url_open_read,
    zip_extractall, action, ret.
  cbn [fst snd world calls stdout].
  destruct (sys_exists os TMP_UNZIP_PATH (world st)) eqn:E.
  - destruct (fst (sys_remove os TMP_UNZIP_PATH (world st))) eqn:R;
      cbn [fst snd world calls stdout]; [discriminate |].
    destruct (fst (sys_url_open_read os _ _)) eqn:O;
      cbn [fst snd world calls stdout]; [discriminate |].
    destruct (fst (sys_zip_extractall os _ _ _)) eqn:Z;
      cbn [fst snd world calls stdout]; [discriminate |].
    intros _. apply extract_frame, open_frame, remove_removes, R.
  - destruct (fst (sys_url_open_read os _ _)) eqn:O;
      cbn [fst snd world calls stdout]; [discriminate |].
    destruct (fst (sys_zip_extractall os _ _ _)) eqn:Z;
      cbn [fst snd world calls stdout]; [discriminate |].
    intros _. apply extract_frame, open_frame, E.
Qed.

Lemma attempt_leaves_no_tmp (st : state W) :
  fst (try_except first_attempt fallback st) = Ok tt ->
  sys_exists os TMP_UNZIP_PATH
    (world (snd (try_except first_attempt fallback st))) = false.
Proof.
  unfold try_except.
  destruct (first_attempt st) as [[[] | e | n] st'] eqn:A.
  - intros _. revert A.
    unfold first_attempt, bind, os_remove, zip_extractall, action.
    cbn [fst snd world calls stdout].
    destruct (fst (sys_zip_extractall os _ _ _)) eqn:Z; [discriminate |].
    destruct (fst (sys_remove os TMP_UNZIP_PATH _)) eqn:R; [discriminate |].
    intros [= <-]. cbn [snd world]. apply remove_removes, R.
  - destruct (is_Exception e); [apply fallback_leaves_no_tmp | discriminate].
  - discriminate.
Qed.

Lemma attempt_appends : appends (try_except first_attempt fallback).
Proof.
  apply appends_try_except.
  - apply appends_bind; [apply appends_action | intros _; apply appends_action].
  - apply appends_bind; [apply appends_os_path_exists | intros found].
    apply appends_bind.
    + destruct found; [apply appends_action | apply appends_ret].
    + intros _. apply appends_bind; [apply appends_url_open_read |].
      intros content. apply appends_action.
Qed.

End ZipFetcher.

Ltac step_ok H :=
  match type of H with
  | fst (bind ?m ?k ?s) = Ok _ =>
      let a := fresh "a" in
      let Hm := fresh "Hstep" in
      let E := fresh "E" in
      destruct (bind_ok_inv W m k s _ H) as (a & Hm & E);
      rewrite E in H |- *; clear E; destruct a
  end.


(** C7.  On a machine where a successful [os.remove] removes the file,
    and where fetching with a user-agent, unpacking into the parent
    directory and renaming the unpacked folder do not create
    [TMP_UNZIP_PATH]: every run of [download_and_unzip_files] that
    starts without its target and returns normally has downloaded the
    archive to [TMP_UNZIP_PATH], and that file no longer exists when
    the function returns, whether the first extraction succeeded or
    the user-agent fallback was taken. *)
Theorem tmp_archive_removed
  (source_url target_parent_dir zip_root_name target_root_name : string)
  (st : state W) :
  (forall w, fst (sys_remove os TMP_UNZIP_PATH w) = None ->
     sys_exists os TMP_UNZIP_PATH (snd (sys_remove os TMP_UNZIP_PATH w))
     = false) ->
  (forall req w, sys_exists os TMP_UNZIP_PATH w = false ->
     sys_exists os TMP_UNZIP_PATH (snd (sys_url_open_read os req w)) = false) ->
  (forall content w, sys_exists os TMP_UNZIP_PATH w = false ->
     sys_exists os TMP_UNZIP_PATH
       (snd (sys_zip_extractall os (ZipBytes content) target_parent_dir w))
     = false) ->
  (forall w, sys_exists os TMP_UNZIP_PATH w = false ->
     sys_exists os TMP_UNZIP_PATH
       (snd (sys_rename os (os_path_join target_parent_dir zip_root_name)
               (os_path_join target_parent_dir target_root_name) w))
     = false) ->
  sys_exists os (os_path_join target_parent_dir target_root_name) (world st)
  = false ->
  let r := download_and_unzip_files W os source_url target_parent_dir
             zip_root_name target_root_name st in
  fst r = Ok tt ->
  In (CUrlRetrieve source_url TMP_UNZIP_PATH) (calls (snd r)) /\
  sys_exists os TMP_UNZIP_PATH (world (snd r)) = false.
Proof.
  intros Hrm Hopen Hex Hren Habs r Hr. unfold r in *. clear r.
  unfold download_and_unzip_files in *.
  destruct (bind_ok_inv W _ _ _ _ Hr) as (found & Hfound & E).
  rewrite E in Hr |- *. clear E.
  change (snd (os_path_exists W os
                 (os_path_join target_parent_dir target_root_name) st))
    with st in Hr |- *.
  unfold os_path_exists in Hfound. cbn [fst] in Hfound.
  injection Hfound as Hfound. rewrite Habs in Hfound. subst found.
  cbn [negb] in Hr |- *.
  step_ok Hr. step_ok Hr. step_ok Hr. step_ok Hr. step_ok Hr.
  clear Hr.
  match goal with
  | H : fst (try_except ?a ?b ?s) = Ok tt |- _ =>
      pose proof (attempt_leaves_no_tmp source_url target_parent_dir
                    Hrm Hopen Hex s H) as Htmp;
      destruct (attempt_appends source_url target_parent_dir s) as [post Hpost];
      set (s3 := s) in *
  end.
  split.
  - cbn [print print_ snd calls]. unfold os_rename. rewrite action_calls.
    apply in_or_app. left. rewrite Hpost. apply in_or_app. left.
    unfold s3, common_url_retrieve. rewrite action_calls.
    apply in_or_app. right. left. reflexivity.
  - cbn [print print_ snd world]. unfold os_rename. rewrite action_world.
    apply Hren. exact Htmp.
Qed.

End Fetchers.

(** ** Facts about the simulated machine *)

Lemma sim_in_add_same (p : string) (w : list string) :
  in_list p (Sim.add_path p w) = true.
Proof.
  unfold Sim.add_path. destruct (in_list p w) eqn:E; [exact E |].
  simpl. rewrite String.eqb_refl. reflexivity.
Qed.

Lemma sim_in_add_other (p q : string) (w : list string) :
  q <> p -> in_list q (Sim.add_path p w) = in_list q w.
Proof.
  intros H. unfold Sim.add_path. destruct (in_list p w); [reflexivity |].
  simpl. apply String.eqb_neq in H. rewrite H. reflexivity.
Qed.

Lemma sim_in_del_same (p : string) (w : list string) :
  in_list p (Sim.del_path p w) = false.
Proof.
  unfold Sim.del_path. induction w as [| x w IH]; [reflexivity |].
  simpl. destruct (String.eqb p x) eqn:E; simpl; [exact IH |].
  rewrite E. exact IH.
Qed.

Lemma sim_in_del_absent (p q : string) (w : list string) :
  in_list q w = false -> in_list q (Sim.del_path p w) = false.
Proof.
  unfold Sim.del_path. induction w as [| x w IH]; [reflexivity |].
  simpl. destruct (String.eqb q x) eqn:E; [discriminate |].
  intros H. destruct (String.eqb p x); simpl; [apply IH, H |].
  rewrite E. apply IH, H.
Qed.

Lemma fetch_skipped_when_target_exists_witness :
  let os := Sim.platform false "pkg-3" {| dependencies := [] |} in
  let st := Sim.initial ["./third_party/static/pkg-3"] in
  download_and_unzip_files (list string) os "https://x/pkg-3.zip"
    "./third_party/static" "pkg-3" "pkg-3" st = (Ok tt, st) /\
  download_and_untar_files (list string) os "https://x/pkg-3.zip"
    "./third_party/static" "pkg-3" "pkg-3" st = (Ok tt, st).
Proof.
  intros os st.
  apply (fetch_skipped_when_target_exists (list string) os).
  reflexivity.
Defined.

Lemma download_files_fetches_missing_witness :
  let os := Sim.platform false "pkg-3" {| dependencies := [] |} in
  let dir := "./third_party/static/fonts-1" in
  let st := Sim.initial ["./third_party/static/fonts-1/a.css"] in
  let r := download_files (list string) os "https://x/fonts" dir
             ["a.css"; "b.css"] st in
  fst r = Ok tt /\
  exists fetched : list string,
    calls (snd r) =
      (calls st ++ CEnsureDirectoryExists dir
         :: map (retrieval_of "https://x/fonts" dir) fetched)%list /\
    NoDup (map (os_path_join dir) fetched) /\
    (forall f, In f fetched ->
       In f ["a.css"; "b.css"] /\
       sys_exists os (os_path_join dir f) (world st) = false) /\
    (forall f, In f ["a.css"; "b.css"] ->
       sys_exists os (os_path_join dir f) (world st) = false ->
       In (os_path_join dir f) (map (os_path_join dir) fetched)) /\
    (forall f, In f ["a.css"; "b.css"] ->
       sys_exists os (os_path_join dir f) (world (snd r)) = true).
Proof.
  intros os dir st.
  apply (download_files_fetches_missing (list string) os).
  - reflexivity.
  - intros f [<- | [<- | []]]; reflexivity.
  - reflexivity.
  - intros u p w. apply sim_in_add_same.
  - intros u p q w H. apply sim_in_add_other, H.
Defined.

(** The run of the witness above fetches [b.css] and nothing else. *)
Example download_files_run :
  calls (snd (download_files (list string)
                (Sim.platform false "pkg-3" {| dependencies := [] |})
                "https://x/fonts" "./third_party/static/fonts-1"
                ["a.css"; "b.css"]
                (Sim.initial ["./third_party/static/fonts-1/a.css"])))
  = [CEnsureDirectoryExists "./third_party/static/fonts-1";
     CUrlRetrieve "https://x/fonts/b.css" "./third_party/static/fonts-1/b.css"].
Proof. reflexivity. Qed.

Lemma tmp_archive_removed_witness :
  let os := Sim.platform true "pkg-3" {| dependencies := [] |} in
  let r := download_and_unzip_files (list string) os "https://x/pkg-3.zip"
             "./third_party/static" "pkg-3" "pkg-3" (Sim.initial []) in
  In (CUrlRetrieve "https://x/pkg-3.zip" TMP_UNZIP_PATH) (calls (snd r)) /\
  sys_exists os TMP_UNZIP_PATH (world (snd r)) = false.
Proof.
  intros os.
  apply (tmp_archive_removed (list string) os).
  - intros w. simpl. destruct (in_list TMP_UNZIP_PATH w); simpl.
    + intros _. apply sim_in_del_same.
    + discriminate.
  - intros req w H. exact H.
  - intros content w H. simpl. rewrite sim_in_add_other; [exact H | discriminate].
  - intros w H. simpl.
    destruct (in_list (os_path_join _ _) w); simpl; [| exact H].
    rewrite sim_in_add_other; [| discriminate].
    apply sim_in_del_absent, H.
  - reflexivity.
  - reflexivity.
Defined.

(** Both paths of the zip fetcher on the simulated machine: the calls
    made when the first extraction succeeds, and when it fails and the
    archive is fetched again with a user-agent. *)
Example unzip_first_attempt_run :
  download_and_unzip_files (list string)
    (Sim.platform false "pkg-3" {| dependencies := [] |})
    "https://x/pkg-3.zip" "./third_party/static" "pkg-3" "pkg-3"
    (Sim.initial [])
  = (Ok tt,
     {| world := ["./third_party/static/pkg-3"; "./third_party/static"];
        calls := [CEnsureDirectoryExists "./third_party/static";
                  CUrlRetrieve "https://x/pkg-3.zip" "./tmp_unzip.zip";
                  CZipExtractAll (ZipPath "./tmp_unzip.zip")
                    "./third_party/static";
                  CRemove "./tmp_unzip.zip";
                  CRename "./third_party/static/pkg-3"
                    "./third_party/static/pkg-3"];
        stdout := [PStr "Downloading and unzipping file pkg-3 to ./third_party/static ...";
                   PStr "Download of pkg-3 succeeded."] |}).
Proof. reflexivity. Qed.

Example unzip_fallback_run :
  calls (snd (download_and_unzip_files (list string)
                (Sim.platform true "pkg-3" {| dependencies := [] |})
                "https://x/pkg-3.zip" "./third_party/static" "pkg-3" "pkg-3"
                (Sim.initial [])))
  = [CEnsureDirectoryExists "./third_party/static";
     CUrlRetrieve "https://x/pkg-3.zip" "./tmp_unzip.zip";
     CZipExtractAll (ZipPath "./tmp_unzip.zip") "./third_party/static";
     CRemove "./tmp_unzip.zip";
     CUrlOpenRead {| req_url := "https://x/pkg-3.zip";
                     req_headers := [("User-agent", "python")] |};
     CZipExtractAll (ZipBytes "PK") "./third_party/static";
     CRename "./third_party/static/pkg-3" "./third_party/static/pkg-3"].
Proof. reflexivity. Qed.

(** ** The orchestrator *)

Section Orchestrator.

Variable W : Type.
Variable os : Platform W.

Lemma return_json_run (filepath text : string) (m : DependenciesDict)
  (st : state W) :
  sys_read_file os filepath (world st) = inr text ->
  sys_json_loads os text = inr m ->
  return_json W os filepath st = (Ok m, st).
Proof.
  intros Hread Hjson. unfold return_json, bind, get_file_contents.
  rewrite Hread, Hjson. reflexivity.
Qed.

Lemma diag_return_json (filepath : string) :
  diagnostic_only (return_json W os filepath).
Proof.
  unfold return_json. apply diag_bind.
  - intros st. unfold get_file_contents.
    destruct (sys_read_file os filepath (world st)); simpl;
      repeat split; discriminate.
  - intros response. destruct (sys_json_loads os response); auto with diag.
Qed.

Lemma diag_validate_dependencies (filepath : string) :
  diagnostic_only (validate_dependencies W os filepath).
Proof.
  unfold validate_dependencies. apply diag_bind; [apply diag_return_json |].
  intros data. apply diag_for_each. intros category _.
  apply diag_for_each. intros named _. apply diag_validate_dependency.
Qed.

Lemma validate_dependencies_fails (filepath text : string)
  (m : DependenciesDict) (category name : string)
  (deps : list (string * DependencyDict)) (e : DependencyDict)
  (st : state W) :
  sys_read_file os filepath (world st) = inr text ->
  sys_json_loads os text = inr m ->
  In (category, deps) (dependencies m) ->
  In (name, e) deps ->
  malformed W e ->
  fst (validate_dependencies W os filepath st) <> Ok tt.
Proof.
  intros Hread Hjson Hcat Hdep Hbad.
  unfold validate_dependencies. unfold bind at 1.
  rewrite (return_json_run filepath text m st Hread Hjson).
  apply (for_each_fails W _ _ (category, deps) Hcat).
  intros st'. cbn [snd].
  apply (for_each_fails W _ _ (name, e) Hdep).
  intros st''. apply Hbad.
Qed.

(** When validation does not succeed the orchestrator stops there. *)
Lemma download_stops_at_validation (filepath : string) (st : state W) :
  fst (validate_dependencies W os filepath st) <> Ok tt ->
  let r := download_all_dependencies W os filepath st in
  r = validate_dependencies W os filepath st /\
  exit_status (fst r) <> 0%Z /\
  calls (snd r) = calls st /\
  world (snd r) = world st.
Proof.
  intros Hfail r.
  assert (Hr : r = validate_dependencies W os filepath st).
  { unfold r, download_all_dependencies, bind.
    destruct (validate_dependencies W os filepath st) as [[[] | e | n] st'];
      simpl in *; [destruct (Hfail eq_refl) | reflexivity | reflexivity]. }
  rewrite Hr.
  destruct (diag_validate_dependencies filepath st) as (Hw & Hc & Hn).
  repeat split; try assumption.
  destruct (fst (validate_dependencies W os filepath st)) as [[] | e | n].
  - destruct (Hfail eq_refl).
  - discriminate.
  - simpl. rewrite (Hn n eq_refl). discriminate.
Qed.

Lemma malformed_manifest_stops (filepath text : string)
  (m : DependenciesDict) (category name : string)
  (deps : list (string * DependencyDict)) (e : DependencyDict)
  (st : state W) :
  sys_read_file os filepath (world st) = inr text ->
  sys_json_loads os text = inr m ->
  In (category, deps) (dependencies m) ->
  In (name, e) deps ->
  malformed W e ->
  let r := download_all_dependencies W os filepath st in
  r = validate_dependencies W os filepath st /\
  exit_status (fst r) <> 0%Z /\
  calls (snd r) = calls st /\
  world (snd r) = world st.
Proof.
  intros Hread Hjson Hcat Hdep Hbad.
  apply download_stops_at_validation.
  apply (validate_dependencies_fails filepath text m category name deps e);
    assumption.
Qed.

Lemma all_mandatory_present_false (keys mandatory : list string)
  (key : string) :
  In key mandatory -> in_list key keys = false ->
  all_mandatory_present keys mandatory = false.
Proof.
  intros Hin Hkey. unfold all_mandatory_present.
  destruct (forallb (fun k => in_list k keys) mandatory) eqn:E; [| reflexivity].
  rewrite forallb_forall in E. rewrite (E key Hin) in Hkey. discriminate.
Qed.

(** C3.  An entry that lacks a mandatory key of the declared format
    makes the validator exit with status 1; and when such an entry is
    anywhere in the manifest, [download_all_dependencies] ends with a
    non-zero exit status without a single call to a collaborator, so
    without any download, and leaves the machine as it was. *)
Theorem missing_mandatory_key_is_fatal (ty key : string)
  (table : DownloadFormatToDependenciesKeysDict) (e : DependencyDict) :
  DOWNLOAD_FORMATS_TO_DEPENDENCIES_KEYS ty = Some table ->
  In key (mandatory_keys table) ->
  in_list key (dict_keys e) = false ->
  (forall st : state W, fst (test_dependencies_syntax W ty e st) = Exited 1) /\
  (forall (filepath text category name : string) (m : DependenciesDict)
          (deps : list (string * DependencyDict)) (st : state W),
     downloadFormat e = Some ty ->
     sys_read_file os filepath (world st) = inr text ->
     sys_json_loads os text = inr m ->
     In (category, deps) (dependencies m) ->
     In (name, e) deps ->
     let r := download_all_dependencies W os filepath st in
     exit_status (fst r) <> 0%Z /\
     calls (snd r) = calls st /\
     world (snd r) = world st).
Proof.
  intros Ht Hin Hkey.
  assert (Hv : syntax_verdict ty e = Exited 1).
  { apply (syntax_verdict_missing_key ty table e Ht).
    apply (all_mandatory_present_false _ _ key Hin Hkey). }
  split.
  - intros st. rewrite test_dependencies_syntax_verdict. exact Hv.
  - intros filepath text category name m deps st Hf Hread Hjson Hcat Hdep.
    apply (malformed_manifest_stops filepath text m category name deps e st
             Hread Hjson Hcat Hdep).
    intros st'. rewrite (validate_dependency_fst W e ty st' Hf), Hv.
    discriminate.
Qed.

(** C8.  When some entry of some category of the manifest is rejected
    by validation, [download_all_dependencies] ends where
    [validate_dependencies] ends: with a non-zero exit status, no call
    to a collaborator (no fetch of any entry, sound or not) and the
    machine as it was. *)
Theorem validation_precedes_fetching (filepath text category name : string)
  (m : DependenciesDict) (deps : list (string * DependencyDict))
  (e : DependencyDict) (st : state W) :
  sys_read_file os filepath (world st) = inr text ->
  sys_json_loads os text = inr m ->
  In (category, deps) (dependencies m) ->
  In (name, e) deps ->
  malformed W e ->
  let r := download_all_dependencies W os filepath st in
  r = validate_dependencies W os filepath st /\
  exit_status (fst r) <> 0%Z /\
  calls (snd r) = calls st /\
  world (snd r) = world st.
Proof.
  intros Hread Hjson Hcat Hdep Hbad.
  exact (malformed_manifest_stops filepath text m category name deps e st
           Hread Hjson Hcat Hdep Hbad).
Qed.

Lemma validated_entry (e : DependencyDict) (st0 : state W) :
  fst (validate_dependency W e st0) = Ok tt ->
  exists ty u,
    downloadFormat e = Some ty /\ url e = Some u /\
    has_mandatory_keys ty e = true /\ optional_pairs_ok ty e = true.
Proof.
  destruct (downloadFormat e) as [ty |] eqn:Hf.
  - rewrite (validate_dependency_fst W e ty st0 Hf).
    unfold syntax_verdict.
    destruct (DOWNLOAD_FORMATS_TO_DEPENDENCIES_KEYS ty) as [table |] eqn:Ht;
      [| discriminate].
    destruct (all_mandatory_present _ _) eqn:Hm; [| discriminate].
    destruct (forallb _ _) eqn:Hp; [| discriminate].
    destruct (url e) as [u |]; [| discriminate].
    intros _. exists ty, u.
    unfold has_mandatory_keys, optional_pairs_ok. rewrite Ht, Hm, Hp.
    repeat split.
  - rewrite (validate_dependency_no_format W e st0 Hf). discriminate.
Qed.

Lemma known_format (ty : string) (e : DependencyDict) :
  has_mandatory_keys ty e = true ->
  ty = "zip" \/ ty = "tar" \/ ty = "files".
Proof.
  unfold has_mandatory_keys, DOWNLOAD_FORMATS_TO_DEPENDENCIES_KEYS.
  destruct (String.eqb_spec ty "zip"); [auto |].
  destruct (String.eqb_spec ty "files"); [auto |].
  destruct (String.eqb_spec ty "tar"); [auto | discriminate].
Qed.

Lemma target_dir_join (data D name : string) :
  TARGET_DOWNLOAD_DIRS data = Some D ->
  startswith name "/" = false ->
  os_path_join D name = D ++ "/" ++ name.
Proof.
  unfold TARGET_DOWNLOAD_DIRS.
  destruct (String.eqb data "proto");
    [| destruct (String.eqb data "frontend");
       [| destruct (String.eqb data "oppiaTools"); [| discriminate]]];
    intros [= <-] H; unfold os_path_join; rewrite H; reflexivity.
Qed.

(** C9.  For an entry that validation accepts, listed under a category
    that maps to the directory [D], the orchestrator calls the fetcher
    of the declared format: for [zip], with the root name and the
    target name resolved from the explicit field when present and
    otherwise from prefix and version; for [tar], with
    [tarRootDirPrefix + version] and [targetDirPrefix + version]; for
    [files], with the target directory [D/(targetDirPrefix + version)].
    The zip and tar fetchers place the target under [D].  The example
    entry (version 3, prefixes [pkg-]) is fetched with root name
    [pkg-3] and target [D/pkg-3]. *)
Theorem names_resolved (data D : string) (e : DependencyDict)
  (st0 : state W) :
  fst (validate_dependency W e st0) = Ok tt ->
  TARGET_DOWNLOAD_DIRS data = Some D ->
  (exists rev u,
     version e = Some rev /\ url e = Some u /\
     ((downloadFormat e = Some "zip" /\
       exists root target,
         resolve_name (rootDir e) (rootDirPrefix e) rev = Some root /\
         resolve_name (targetDir e) (targetDirPrefix e) rev = Some target /\
         forall st, download_dependency W os data e st =
                    download_and_unzip_files W os u D root target st)
      \/
      (downloadFormat e = Some "tar" /\
       exists tar_prefix prefix,
         tarRootDirPrefix e = Some tar_prefix /\
         targetDirPrefix e = Some prefix /\
         forall st, download_dependency W os data e st =
                    download_and_untar_files W os u D
                      (tar_prefix ++ rev) (prefix ++ rev) st)
      \/
      (downloadFormat e = Some "files" /\
       exists prefix filenames,
         targetDirPrefix e = Some prefix /\
         files e = Some filenames /\
         forall st, download_dependency W os data e st =
                    download_files W os u (os_path_join D (prefix ++ rev))
                      filenames st))) /\
  (forall st, download_dependency W os data example_zip_entry st =
              download_and_unzip_files W os "https://x/pkg-3.zip" D
                "pkg-3" "pkg-3" st) /\
  os_path_join D "pkg-3" = D ++ "/pkg-3".
Proof.
  intros Hvalid HD. split; [| split].
  - destruct (validated_entry e st0 Hvalid) as (ty & u & Hf & Hu & Hk & Hp).
    destruct e as [ver fmt u' rdp rd tdp td trp fs b].
    cbn [version downloadFormat url rootDirPrefix rootDir targetDirPrefix
         targetDir tarRootDirPrefix files] in *.
    subst fmt u'.
    destruct (known_format _ _ Hk) as [-> | [-> | ->]];
      unfold has_mandatory_keys, all_mandatory_present in Hk;
      unfold optional_pairs_ok, exactly_one_present, optional_keys_in_dict in Hp;
      cbn [DOWNLOAD_FORMATS_TO_DEPENDENCIES_KEYS String.eqb Ascii.eqb Bool.eqb
           mandatory_keys optional_key_pairs forallb filter] in Hk, Hp;
      autorewrite with keys in Hk, Hp; simpl in Hk, Hp.
    + destruct ver as [rev |]; [| discriminate]. exists rev, u.
      split; [reflexivity | split; [reflexivity | left]].
      split; [reflexivity |].
      unfold download_dependency. autorewrite with keys.
      destruct rd as [r |], rdp as [rp |], td as [t |], tdp as [tp |];
        try discriminate;
        eexists _, _; (split; [reflexivity | split; [reflexivity |]]);
        intros st; cbn; rewrite HD; reflexivity.
    + destruct ver as [rev |]; [| discriminate].
      destruct trp as [tar_prefix |]; [| discriminate].
      destruct tdp as [prefix |]; [| discriminate].
      exists rev, u.
      split; [reflexivity | split; [reflexivity | right; left]].
      split; [reflexivity |]. exists tar_prefix, prefix.
      split; [reflexivity | split; [reflexivity |]].
      intros st. unfold download_dependency. cbn. rewrite HD. reflexivity.
    + destruct ver as [rev |]; [| discriminate].
      destruct fs as [filenames |]; [| discriminate].
      destruct tdp as [prefix |]; [| discriminate].
      exists rev, u.
      split; [reflexivity | split; [reflexivity | right; right]].
      split; [reflexivity |]. exists prefix, filenames.
      split; [reflexivity | split; [reflexivity |]].
      intros st. unfold download_dependency. cbn. rewrite HD. reflexivity.
  - intros st. unfold download_dependency. cbn. rewrite HD. reflexivity.
  - apply (target_dir_join data D "pkg-3" HD). reflexivity.
Qed.

End Orchestrator.

(** ** Runs of the orchestrator on the simulated machine *)

Lemma missing_mandatory_key_is_fatal_witness :
  let os := Sim.platform false "pkg-3" manifest_with_bad_entry in
  let st := Sim.initial ["dependencies.json"] in
  let r := download_all_dependencies (list string) os "dependencies.json" st in
  fst (test_dependencies_syntax (list string) "tar" tar_entry_no_version st)
  = Exited 1 /\
  exit_status (fst r) <> 0%Z /\
  calls (snd r) = calls st /\
  world (snd r) = world st.
Proof.
  intros os st.
  destruct (missing_mandatory_key_is_fatal (list string) os "tar" "version" _
              tar_entry_no_version eq_refl (or_introl eq_refl) eq_refl)
    as [Hsyntax Hrun].
  split; [apply Hsyntax |].
  apply (Hrun "dependencies.json" "{}" "oppiaTools" "tool"
           manifest_with_bad_entry [("tool", tar_entry_no_version)] st).
  - reflexivity.
  - reflexivity.
  - reflexivity.
  - right. left. reflexivity.
  - left. reflexivity.
Defined.

Lemma validation_precedes_fetching_witness :
  let os := Sim.platform false "pkg-3" manifest_with_bad_entry in
  let st := Sim.initial ["dependencies.json"] in
  let r := download_all_dependencies (list string) os "dependencies.json" st in
  r = validate_dependencies (list string) os "dependencies.json" st /\
  exit_status (fst r) <> 0%Z /\
  calls (snd r) = calls st /\
  world (snd r) = world st.
Proof.
  intros os st.
  apply (validation_precedes_fetching (list string) os "dependencies.json"
           "{}" "oppiaTools" "tool" manifest_with_bad_entry
           [("tool", tar_entry_no_version)] tar_entry_no_version st).
  - reflexivity.
  - reflexivity.
  - right. left. reflexivity.
  - left. reflexivity.
  - intros st'.
    rewrite (validate_dependency_fst (list string) tar_entry_no_version "tar"
               st' eq_refl).
    vm_compute. discriminate.
Defined.

(** The sound entry listed first in that manifest is not fetched. *)
Example bad_manifest_run :
  download_all_dependencies (list string)
    (Sim.platform false "pkg-3" manifest_with_bad_entry) "dependencies.json"
    (Sim.initial ["dependencies.json"])
  = (Exited 1,
     {| world := ["dependencies.json"];
        calls := [];
        stdout := [PStr "------------------------------------------";
                   PStr "There is syntax error in this dependency";
                   PDict tar_entry_no_version;
                   PStr ("This key is missing or misspelled: " ++ dquote
                         ++ "version" ++ dquote ++ ".");
                   PStr "Exiting"] |}).
Proof. reflexivity. Qed.

Lemma names_resolved_witness :
  download_dependency (list string)
    (Sim.platform false "pkg-3" manifest_with_bad_entry)
    "frontend" example_zip_entry (Sim.initial [])
  = download_and_unzip_files (list string)
      (Sim.platform false "pkg-3" manifest_with_bad_entry)
      "https://x/pkg-3.zip" "./third_party/static" "pkg-3" "pkg-3"
      (Sim.initial []) /\
  os_path_join "./third_party/static" "pkg-3" = "./third_party/static/pkg-3".
Proof.
  destruct (names_resolved (list string)
              (Sim.platform false "pkg-3" manifest_with_bad_entry)
              "frontend" "./third_party/static" example_zip_entry
              (Sim.initial []) eq_refl eq_refl) as (_ & Hrun & Hdir).
  split; [apply Hrun | exact Hdir].
Defined.

(** The example of the specification, run from an empty third-party
    directory: the archive is unpacked and ends as [D/pkg-3]. *)
Example example_entry_run :
  let m := {| dependencies := [("frontend", [("pkg", example_zip_entry)])] |} in
  let r := download_all_dependencies (list string)
             (Sim.platform false "pkg-3" m) "dependencies.json"
             (Sim.initial ["dependencies.json"]) in
  fst r = Ok tt /\
  world (snd r) =
    ["./third_party/static/pkg-3"; "./third_party/static"; "dependencies.json"].
Proof. split; reflexivity. Qed.

(** ** More on the validator *)

Section ValidatorRuns.

Variable W : Type.

Lemma url_mismatch_zip (s : string) :
  url_mismatch "zip" s = negb (endswith s ".zip").
Proof.
  unfold url_mismatch. cbn [String.eqb Ascii.eqb Bool.eqb _DOWNLOAD_FORMAT_ZIP
                            _DOWNLOAD_FORMAT_TAR negb].
  destruct (endswith s ".zip") eqn:Hz; cbn.
  - rewrite (endswith_zip_not_tar s Hz). reflexivity.
  - reflexivity.
Qed.

Lemma url_mismatch_tar (s : string) :
  url_mismatch "tar" s = negb (endswith s ".tar.gz").
Proof.
  unfold url_mismatch. cbn [String.eqb Ascii.eqb Bool.eqb _DOWNLOAD_FORMAT_ZIP
                            _DOWNLOAD_FORMAT_TAR negb].
  destruct (endswith s ".tar.gz") eqn:Ht; cbn.
  - destruct (endswith s ".zip") eqn:Hz; [| reflexivity].
    rewrite (endswith_zip_not_tar s Hz) in Ht. discriminate.
  - rewrite !orb_true_r. reflexivity.
Qed.

Lemma five_prints (st : state W) (d : DependencyDict) (a b msg last : string)
  (A : Type) (status : Z) :
  a = "------------------------------------------" ->
  b = "There is syntax error in this dependency" ->
  (print a ;; print b ;; print_ (PDict d) ;; print msg ;; print last ;;
   @sys_exit W A status) st
  = (Exited status, diagnosed st d msg last).
Proof.
  intros -> ->. unfold bind, print, print_, sys_exit, diagnosed.
  cbn [fst snd world calls stdout]. rewrite <- !app_assoc. reflexivity.
Qed.

Lemma bind_ok_l {A B : Type} (m : M W A) (k : A -> M W B) (st st' : state W)
  (a : A) :
  m st = (Ok a, st') -> bind m k st = k a st'.
Proof. intros H. unfold bind. rewrite H. reflexivity. Qed.

Lemma bind_exit_l {A B : Type} (m : M W A) (k : A -> M W B)
  (st st' : state W) (n : Z) :
  m st = (Exited n, st') -> bind m k st = (Exited n, st').
Proof. intros H. unfold bind. rewrite H. reflexivity. Qed.

Lemma bind_raise_l {A B : Type} (m : M W A) (k : A -> M W B)
  (st st' : state W) (e : exn) :
  m st = (Raised e, st') -> bind m k st = (Raised e, st').
Proof. intros H. unfold bind. rewrite H. reflexivity. Qed.

Lemma check_mandatory_keys_run (d : DependencyDict)
  (keys mandatory : list string) (st : state W) :
  check_mandatory_keys W d keys mandatory st = (Ok tt, st) \/
  exists key,
    In key mandatory /\ in_list key keys = false /\
    check_mandatory_keys W d keys mandatory st =
    (Exited 1,
     diagnosed st d
       ("This key is missing or misspelled: " ++ dquote ++ key ++ dquote ++ ".")
       "Exiting").
Proof.
  unfold check_mandatory_keys.
  induction mandatory as [| key rest IH]; [left; reflexivity |].
  cbn [for_each].
  destruct (in_list key keys) eqn:E; cbn [negb].
  - rewrite (bind_ok_l _ _ st st tt eq_refl).
    destruct IH as [IH | (k & Hin & Hk & IH)].
    + left. exact IH.
    + right. exists k. split; [right; exact Hin | split; [exact Hk | exact IH]].
  - right. exists key. split; [left; reflexivity | split; [exact E |]].
    apply bind_exit_l. apply five_prints; reflexivity.
Qed.

Lemma check_optional_key_pairs_run (d : DependencyDict)
  (keys : list string) (pairs : list (list string)) (st : state W) :
  check_optional_key_pairs W d keys pairs st = (Ok tt, st) \/
  exists pair,
    In pair pairs /\
    check_optional_key_pairs W d keys pairs st =
    (Exited 1,
     diagnosed st d
       ("Only one of these keys pair must be used: " ++ dquote
        ++ str_join ", " pair ++ dquote ++ ".")
       "Exiting").
Proof.
  unfold check_optional_key_pairs.
  induction pairs as [| pair rest IH]; [left; reflexivity |].
  cbn [for_each].
  destruct (Nat.eqb (List.length (optional_keys_in_dict pair keys)) 1);
    cbn [negb].
  - rewrite (bind_ok_l _ _ st st tt eq_refl).
    destruct IH as [IH | (k & Hin & IH)].
    + left. exact IH.
    + right. exists k. split; [right; exact Hin | exact IH].
  - right. exists pair. split; [left; reflexivity |].
    apply bind_exit_l. apply five_prints; reflexivity.
Qed.

(** The three ways the validator ends. *)
Lemma test_dependencies_syntax_run (ty : string) (d : DependencyDict)
  (st : state W) :
  test_dependencies_syntax W ty d st = (Ok tt, st) \/
  (exists e, test_dependencies_syntax W ty d st = (Raised e, st)) \/
  (exists msg last,
     test_dependencies_syntax W ty d st = (Exited 1, diagnosed st d msg last)).
Proof.
  unfold test_dependencies_syntax.
  destruct (DOWNLOAD_FORMATS_TO_DEPENDENCIES_KEYS ty) as [table |];
    [| right; left; eexists; reflexivity].
  cbn [getitem]. rewrite (bind_ok_l _ _ st st table eq_refl).
  destruct (check_mandatory_keys_run d (dict_keys d) (mandatory_keys table) st)
    as [Hm | (key & _ & _ & Hm)];
    [| right; right; eexists _, _; apply bind_exit_l; exact Hm].
  rewrite (bind_ok_l _ _ st st tt Hm).
  assert (Hpairs :
    (match optional_key_pairs table with
     | [] => ret tt
     | _ :: _ => check_optional_key_pairs W d (dict_keys d)
                   (optional_key_pairs table)
     end) st = (Ok tt, st) \/
    exists pair,
    (match optional_key_pairs table with
     | [] => ret tt
     | _ :: _ => check_optional_key_pairs W d (dict_keys d)
                   (optional_key_pairs table)
     end) st =
    (Exited 1,
     diagnosed st d
       ("Only one of these keys pair must be used: " ++ dquote
        ++ str_join ", " pair ++ dquote ++ ".")
       "Exiting")).
  { destruct (optional_key_pairs table) as [| p ps] eqn:E; [left; reflexivity |].
    destruct (check_optional_key_pairs_run d (dict_keys d) (p :: ps) st)
      as [H | (pair & _ & H)]; [left; exact H | right; exists pair; exact H]. }
  destruct Hpairs as [Hp | (pair & Hp)];
    [| right; right; eexists _, _; apply bind_exit_l; exact Hp].
  rewrite (bind_ok_l _ _ st st tt Hp).
  destruct (url d) as [u |]; [| right; left; eexists; reflexivity].
  cbn [getitem]. rewrite (bind_ok_l _ _ st st u eq_refl).
  destruct (url_mismatch ty (strip_fragment u)).
  - right. right. eexists _, _. apply five_prints; reflexivity.
  - left. reflexivity.
Qed.

Lemma validate_dependency_run (d : DependencyDict) (ty : string)
  (st : state W) :
  downloadFormat d = Some ty ->
  validate_dependency W d st = test_dependencies_syntax W ty d st.
Proof.
  intros H. unfold validate_dependency.
  rewrite in_keys_downloadFormat, H. reflexivity.
Qed.

(** An accepted entry is accepted in every state, and leaves it as it
    is. *)
Lemma accepted_everywhere (d : DependencyDict) (st st' : state W) :
  fst (validate_dependency W d st) = Ok tt ->
  validate_dependency W d st' = (Ok tt, st').
Proof.
  destruct (downloadFormat d) as [ty |] eqn:Hf.
  - rewrite !(validate_dependency_run d ty _ Hf).
    rewrite test_dependencies_syntax_verdict. intros Hv.
    destruct (test_dependencies_syntax_run ty d st')
      as [H | [(e & H) | (msg & last & H)]]; [exact H | |];
      pose proof (test_dependencies_syntax_verdict W ty d st') as Hv';
      rewrite H, Hv in Hv'; discriminate.
  - rewrite (validate_dependency_no_format W d st Hf). discriminate.
Qed.

End ValidatorRuns.

Section ValidatorProperties.

Variable W : Type.

Lemma syntax_verdict_zip (d : DependencyDict) :
  syntax_verdict "zip" d =
  if negb (is_some (version d) && is_some (url d) && is_some (downloadFormat d))
  then Exited 1
  else if negb (xorb (is_some (rootDir d)) (is_some (rootDirPrefix d))
                && xorb (is_some (targetDir d)) (is_some (targetDirPrefix d)))
  then Exited 1
  else match url d with
       | None => Raised (KeyError "url")
       | Some u => if endswith (strip_fragment u) ".zip" then Ok tt else Exited 1
       end.
Proof.
  unfold syntax_verdict, all_mandatory_present, exactly_one_present,
    optional_keys_in_dict.
  cbn [DOWNLOAD_FORMATS_TO_DEPENDENCIES_KEYS String.eqb Ascii.eqb Bool.eqb
       mandatory_keys optional_key_pairs forallb filter].
  autorewrite with keys.
  destruct (version d), (downloadFormat d), (rootDir d), (rootDirPrefix d),
    (targetDir d), (targetDirPrefix d), (url d) as [u |];
    cbn; try reflexivity;
    rewrite url_mismatch_zip; destruct (endswith (strip_fragment u) ".zip");
    reflexivity.
Qed.

Lemma syntax_verdict_tar (d : DependencyDict) :
  syntax_verdict "tar" d =
  if negb (is_some (version d) && is_some (url d)
           && is_some (tarRootDirPrefix d) && is_some (targetDirPrefix d)
           && is_some (downloadFormat d))
  then Exited 1
  else match url d with
       | None => Raised (KeyError "url")
       | Some u =>
           if endswith (strip_fragment u) ".tar.gz" then Ok tt else Exited 1
       end.
Proof.
  unfold syntax_verdict, all_mandatory_present.
  cbn [DOWNLOAD_FORMATS_TO_DEPENDENCIES_KEYS String.eqb Ascii.eqb Bool.eqb
       mandatory_keys optional_key_pairs forallb].
  autorewrite with keys.
  destruct (version d), (downloadFormat d), (tarRootDirPrefix d),
    (targetDirPrefix d), (url d) as [u |];
    cbn; try reflexivity;
    rewrite url_mismatch_tar; destruct (endswith (strip_fragment u) ".tar.gz");
    reflexivity.
Qed.

(** X1.  The validator accepts an entry as a [zip] exactly when it has
    [version], [url] and [downloadFormat], exactly one of [rootDir] and
    [rootDirPrefix], exactly one of [targetDir] and [targetDirPrefix],
    and a url that ends in [.zip] once its fragment is removed. *)
Theorem zip_entry_accepted_iff (d : DependencyDict) (st : state W) :
  fst (test_dependencies_syntax W "zip" d st) = Ok tt <->
  is_some (version d) = true /\
  is_some (downloadFormat d) = true /\
  xorb (is_some (rootDir d)) (is_some (rootDirPrefix d)) = true /\
  xorb (is_some (targetDir d)) (is_some (targetDirPrefix d)) = true /\
  exists u, url d = Some u /\ endswith (strip_fragment u) ".zip" = true.
Proof.
  rewrite test_dependencies_syntax_verdict, syntax_verdict_zip.
  destruct (version d), (downloadFormat d),
    (xorb (is_some (rootDir d)) (is_some (rootDirPrefix d))),
    (xorb (is_some (targetDir d)) (is_some (targetDirPrefix d))),
    (url d) as [u |]; cbn;
    try (split; [discriminate | intros (? & ? & ? & ? & ? & ? & ?); discriminate]).
  destruct (endswith (strip_fragment u) ".zip") eqn:E.
  - split; [| reflexivity]. intros _. repeat split. exists u. split; [reflexivity | exact E].
  - split; [discriminate |].
    intros (_ & _ & _ & _ & u' & [= <-] & Hu). congruence.
Qed.

(** X2.  The validator accepts an entry as a [tar] exactly when it has
    [version], [url], [tarRootDirPrefix], [targetDirPrefix] and
    [downloadFormat], and a url that ends in [.tar.gz] once its
    fragment is removed; [rootDir], [targetDir] and the other fields
    play no part. *)
Theorem tar_entry_accepted_iff (d : DependencyDict) (st : state W) :
  fst (test_dependencies_syntax W "tar" d st) = Ok tt <->
  is_some (version d) = true /\
  is_some (tarRootDirPrefix d) = true /\
  is_some (targetDirPrefix d) = true /\
  is_some (downloadFormat d) = true /\
  exists u, url d = Some u /\ endswith (strip_fragment u) ".tar.gz" = true.
Proof.
  rewrite test_dependencies_syntax_verdict, syntax_verdict_tar.
  destruct (version d), (downloadFormat d), (tarRootDirPrefix d),
    (targetDirPrefix d), (url d) as [u |]; cbn;
    try (split; [discriminate | intros (? & ? & ? & ? & ? & ? & ?); discriminate]).
  destruct (endswith (strip_fragment u) ".tar.gz") eqn:E.
  - split; [| reflexivity]. intros _. repeat split. exists u. split; [reflexivity | exact E].
  - split; [discriminate |].
    intros (_ & _ & _ & _ & u' & [= <-] & Hu). congruence.
Qed.

Lemma known_table_has_url (ty : string)
  (table : DownloadFormatToDependenciesKeysDict) :
  DOWNLOAD_FORMATS_TO_DEPENDENCIES_KEYS ty = Some table ->
  In "url" (mandatory_keys table).
Proof.
  unfold DOWNLOAD_FORMATS_TO_DEPENDENCIES_KEYS.
  destruct (String.eqb ty "zip");
    [| destruct (String.eqb ty "files");
       [| destruct (String.eqb ty "tar"); [| discriminate]]];
    intros [= <-]; cbn; auto.
Qed.

(** X3.  The validator has no effect but its diagnostics.  When it
    accepts, the state is untouched and nothing is printed.  It raises
    only for a format that has no table, a [KeyError], and prints
    nothing.  When it rejects, it exits with status 1 after exactly
    five lines: the rule, the headline, the entry itself, the reason
    and the closing word; the machine and the log of calls are as they
    were. *)
Theorem validator_only_diagnoses (ty : string) (d : DependencyDict)
  (st : state W) :
  let r := test_dependencies_syntax W ty d st in
  (fst r = Ok tt -> snd r = st) /\
  (forall e, fst r = Raised e ->
     snd r = st /\ e = KeyError ty /\
     DOWNLOAD_FORMATS_TO_DEPENDENCIES_KEYS ty = None) /\
  (forall n, fst r = Exited n ->
     n = 1%Z /\ exists msg last, snd r = diagnosed st d msg last).
Proof.
  intros r. subst r.
  destruct (test_dependencies_syntax_run W ty d st)
    as [H | [(e & H) | (msg & last & H)]]; rewrite H; cbn [fst snd].
  - split; [reflexivity | split; intros ? [=]].
  - split; [discriminate | split; [| intros ? [=]]].
    intros e' [= <-]. split; [reflexivity |].
    pose proof (test_dependencies_syntax_verdict W ty d st) as Hv.
    rewrite H in Hv. cbn [fst] in Hv. unfold syntax_verdict in Hv.
    destruct (DOWNLOAD_FORMATS_TO_DEPENDENCIES_KEYS ty) as [table |] eqn:Ht.
    + exfalso.
      destruct (all_mandatory_present (dict_keys d) (mandatory_keys table))
        eqn:Hm; [| discriminate].
      cbn [negb] in Hv.
      destruct (forallb _ _); [| discriminate]. cbn [negb] in Hv.
      unfold all_mandatory_present in Hm. rewrite forallb_forall in Hm.
      specialize (Hm "url" (known_table_has_url ty table Ht)).
      rewrite in_keys_url in Hm.
      destruct (url d) as [u |]; [| discriminate].
      destruct (url_mismatch ty (strip_fragment u)); discriminate.
    + injection Hv as ->. split; reflexivity.
  - split; [discriminate | split; [intros ? [=] |]].
    intros n [= <-]. split; [reflexivity |]. exists msg, last. reflexivity.
Qed.

(** X4.  An entry that has no [downloadFormat], or one that is not
    [zip], [files] or [tar], makes [validate_dependencies] raise at that
    entry (an [Exception] for the missing key, a [KeyError] for the
    unknown format), without a line of diagnostics. *)
Theorem undeclared_format_raises (d : DependencyDict) (st : state W) :
  declared_table d = None ->
  validate_dependency W d st = (Raised (format_error d), st).
Proof.
  unfold declared_table, format_error, validate_dependency.
  rewrite in_keys_downloadFormat.
  destruct (downloadFormat d) as [ty |]; cbn [is_some negb getitem].
  - intros Ht. unfold test_dependencies_syntax, bind. cbn [ret].
    rewrite Ht. reflexivity.
  - intros _. reflexivity.
Qed.

End ValidatorProperties.

Lemma undeclared_format_raises_witness :
  validate_dependency (list string) rar_entry (Sim.initial [])
  = (Raised (KeyError "rar"), Sim.initial []).
Proof.
  exact (undeclared_format_raises (list string) rar_entry (Sim.initial [])
           eq_refl).
Defined.

(** ** More on the orchestrator *)

Section OrchestratorProperties.

Variable W : Type.
Variable os : Platform W.

Lemma for_each_silent {A : Type} (l : list A) (body : A -> M W unit)
  (st : state W) :
  (forall x, In x l -> body x st = (Ok tt, st)) ->
  for_each l body st = (Ok tt, st).
Proof.
  induction l as [| x l IH]; intros H; [reflexivity |].
  cbn [for_each]. unfold bind. rewrite (H x (or_introl eq_refl)).
  apply IH. intros y Hy. apply H. right. exact Hy.
Qed.

Lemma validate_dependencies_loop (filepath text : string)
  (m : DependenciesDict) (st : state W) :
  sys_read_file os filepath (world st) = inr text ->
  sys_json_loads os text = inr m ->
  validate_dependencies W os filepath st =
  for_each (dependencies m) (fun category =>
    for_each (snd category) (fun named =>
      validate_dependency W (snd named))) st.
Proof.
  intros Hread Hjson. unfold validate_dependencies, bind.
  rewrite (return_json_run W os filepath text m st Hread Hjson). reflexivity.
Qed.

Lemma validate_dependencies_accepts (filepath text : string)
  (m : DependenciesDict) (st : state W) :
  sys_read_file os filepath (world st) = inr text ->
  sys_json_loads os text = inr m ->
  (forall category deps name e,
     In (category, deps) (dependencies m) -> In (name, e) deps ->
     fst (validate_dependency W e st) = Ok tt) ->
  validate_dependencies W os filepath st = (Ok tt, st).
Proof.
  intros Hread Hjson Hall.
  rewrite (validate_dependencies_loop filepath text m st Hread Hjson).
  apply for_each_silent. intros [category deps] Hcat.
  apply for_each_silent. intros [name e] Hdep. cbn [snd].
  apply (accepted_everywhere W e st st).
  apply (Hall category deps name e Hcat Hdep).
Qed.

(** X5.  [validate_dependencies] accepts a manifest exactly when it
    accepts every entry of every category; it then leaves the state as
    it was, with nothing printed. *)
Theorem manifest_accepted_iff (filepath text : string) (m : DependenciesDict)
  (st : state W) :
  sys_read_file os filepath (world st) = inr text ->
  sys_json_loads os text = inr m ->
  (validate_dependencies W os filepath st = (Ok tt, st) <->
   forall category deps name e,
     In (category, deps) (dependencies m) -> In (name, e) deps ->
     fst (validate_dependency W e st) = Ok tt) /\
  (fst (validate_dependencies W os filepath st) = Ok tt ->
   snd (validate_dependencies W os filepath st) = st).
Proof.
  intros Hread Hjson.
  assert (Hback : fst (validate_dependencies W os filepath st) = Ok tt ->
                  forall category deps name e,
                    In (category, deps) (dependencies m) -> In (name, e) deps ->
                    fst (validate_dependency W e st) = Ok tt).
  { intros Hok category deps name e Hcat Hdep.
    destruct (fst (validate_dependency W e st)) as [[] | x | n] eqn:E;
      [reflexivity | |]; exfalso;
      apply (validate_dependencies_fails W os filepath text m category name
               deps e st Hread Hjson Hcat Hdep); try exact Hok;
      intros st' Hst';
      rewrite (accepted_everywhere W e st' st Hst') in E; discriminate. }
  split; [split |].
  - intros H. apply Hback. rewrite H. reflexivity.
  - apply (validate_dependencies_accepts filepath text m st Hread Hjson).
  - intros Hok.
    rewrite (validate_dependencies_accepts filepath text m st Hread Hjson
               (Hback Hok)).
    reflexivity.
Qed.

(** X6.  When the manifest cannot be read, or what is read is not JSON,
    [download_all_dependencies] raises that exception at once: nothing
    is printed, no collaborator is called. *)
Theorem manifest_unavailable (filepath : string) (e : exn) (st : state W) :
  sys_read_file os filepath (world st) = inl e \/
  (exists text, sys_read_file os filepath (world st) = inr text /\
                sys_json_loads os text = inl e) ->
  download_all_dependencies W os filepath st = (Raised e, st).
Proof.
  intros [Hread | (text & Hread & Hjson)];
    unfold download_all_dependencies, validate_dependencies, return_json,
      get_file_contents, bind; rewrite Hread; [| rewrite Hjson]; reflexivity.
Qed.

(** X7.  Validation does not look at the category: an entry it accepts,
    listed under a category that is not a key of [TARGET_DOWNLOAD_DIRS],
    makes the orchestrator raise [KeyError] when it reaches the entry,
    before any call to a fetcher. *)
Theorem unknown_category_raises (data : string) (e : DependencyDict)
  (st0 st : state W) :
  fst (validate_dependency W e st0) = Ok tt ->
  TARGET_DOWNLOAD_DIRS data = None ->
  download_dependency W os data e st = (Raised (KeyError data), st).
Proof.
  intros Hvalid HD.
  destruct (validated_entry W e st0 Hvalid) as (ty & u & Hf & Hu & Hk & Hp).
  destruct e as [ver fmt u' rdp rd tdp td trp fs b].
  cbn [version downloadFormat url rootDirPrefix rootDir targetDirPrefix
       targetDir tarRootDirPrefix files] in *.
  subst fmt u'.
  destruct (known_format _ _ Hk) as [-> | [-> | ->]];
    unfold has_mandatory_keys, all_mandatory_present in Hk;
    unfold optional_pairs_ok, exactly_one_present, optional_keys_in_dict in Hp;
    cbn [DOWNLOAD_FORMATS_TO_DEPENDENCIES_KEYS String.eqb Ascii.eqb Bool.eqb
         mandatory_keys optional_key_pairs forallb filter] in Hk, Hp;
    autorewrite with keys in Hk, Hp; simpl in Hk, Hp;
    unfold download_dependency; autorewrite with keys.
  - destruct ver, rd, rdp, td, tdp; try discriminate;
      cbn; rewrite HD; reflexivity.
  - destruct ver, trp, tdp; try discriminate; cbn; rewrite HD; reflexivity.
  - destruct ver, fs, tdp; try discriminate; cbn; rewrite HD; reflexivity.
Qed.

Lemma download_all_after_validation (filepath text : string)
  (m : DependenciesDict) (st : state W) :
  sys_read_file os filepath (world st) = inr text ->
  sys_json_loads os text = inr m ->
  (forall category deps name e,
     In (category, deps) (dependencies m) -> In (name, e) deps ->
     fst (validate_dependency W e st) = Ok tt) ->
  download_all_dependencies W os filepath st = fetch_loop W os m st.
Proof.
  intros Hread Hjson Hall. unfold download_all_dependencies.
  unfold bind at 1.
  rewrite (validate_dependencies_accepts filepath text m st Hread Hjson Hall).
  unfold bind at 1.
  rewrite (return_json_run W os filepath text m st Hread Hjson).
  reflexivity.
Qed.

(** X8.  When validation accepts every entry, the run of
    [download_all_dependencies] is the run of its two fetch loops from
    the same state: validation leaves no trace, the manifest is read a
    second time, and the entries are fetched in the order of the
    manifest. *)
Theorem valid_manifest_is_fetched (filepath text : string)
  (m : DependenciesDict) (st : state W) :
  sys_read_file os filepath (world st) = inr text ->
  sys_json_loads os text = inr m ->
  (forall category deps name e,
     In (category, deps) (dependencies m) -> In (name, e) deps ->
     fst (validate_dependency W e st) = Ok tt) ->
  download_all_dependencies W os filepath st =
  for_each (dependencies m) (fun category =>
    for_each (snd category) (fun named =>
      download_dependency W os (fst category) (snd named))) st.
Proof.
  intros Hread Hjson Hall.
  exact (download_all_after_validation filepath text m st Hread Hjson Hall).
Qed.

Lemma unzip_skipped (source_url parent root target : string) (st : state W) :
  sys_exists os (os_path_join parent target) (world st) = true ->
  download_and_unzip_files W os source_url parent root target st = (Ok tt, st).
Proof.
  intros H. unfold download_and_unzip_files, bind, os_path_exists.
  rewrite H. reflexivity.
Qed.

Lemma untar_skipped (source_url parent root target : string) (st : state W) :
  sys_exists os (os_path_join parent target) (world st) = true ->
  download_and_untar_files W os source_url parent root target st = (Ok tt, st).
Proof.
  intros H. unfold download_and_untar_files, bind, os_path_exists.
  rewrite H. reflexivity.
Qed.

Lemma dispatch_zip (data D rev u root target : string) (e : DependencyDict)
  (st : state W) :
  version e = Some rev -> url e = Some u -> downloadFormat e = Some "zip" ->
  resolve_name (rootDir e) (rootDirPrefix e) rev = Some root ->
  resolve_name (targetDir e) (targetDirPrefix e) rev = Some target ->
  TARGET_DOWNLOAD_DIRS data = Some D ->
  download_dependency W os data e st =
  download_and_unzip_files W os u D root target st.
Proof.
  destruct e as [ver fmt u' rdp rd tdp td trp fs b].
  cbn [version downloadFormat url rootDirPrefix rootDir targetDirPrefix
       targetDir tarRootDirPrefix files].
  intros -> -> -> Hroot Htarget HD.
  unfold download_dependency. autorewrite with keys.
  destruct rd, rdp, td, tdp; cbn in Hroot, Htarget; try discriminate;
    injection Hroot as <-; injection Htarget as <-;
    cbn; rewrite HD; reflexivity.
Qed.

Lemma dispatch_tar (data D rev u tar_prefix prefix : string)
  (e : DependencyDict) (st : state W) :
  version e = Some rev -> url e = Some u -> downloadFormat e = Some "tar" ->
  tarRootDirPrefix e = Some tar_prefix ->
  targetDirPrefix e = Some prefix ->
  TARGET_DOWNLOAD_DIRS data = Some D ->
  download_dependency W os data e st =
  download_and_untar_files W os u D (tar_prefix ++ rev) (prefix ++ rev) st.
Proof.
  destruct e as [ver fmt u' rdp rd tdp td trp fs b].
  cbn [version downloadFormat url rootDirPrefix rootDir targetDirPrefix
       targetDir tarRootDirPrefix files].
  intros -> -> -> -> -> HD.
  unfold download_dependency. cbn. rewrite HD. reflexivity.
Qed.

Lemma installed_entry_skipped (data p : string) (e : DependencyDict)
  (st0 st : state W) :
  fst (validate_dependency W e st0) = Ok tt ->
  archive_target data e = Some p ->
  sys_exists os p (world st) = true ->
  download_dependency W os data e st = (Ok tt, st).
Proof.
  intros Hvalid Ht Hp.
  destruct (validated_entry W e st0 Hvalid) as (ty & u & Hf & Hu & Hk & Hpairs).
  unfold archive_target in Ht. rewrite Hf in Ht.
  destruct (TARGET_DOWNLOAD_DIRS data) as [D |] eqn:HD; [| discriminate].
  destruct (version e) as [rev |] eqn:Hrev; [| discriminate].
  unfold _DOWNLOAD_FORMAT_ZIP, _DOWNLOAD_FORMAT_TAR in Ht.
  destruct (String.eqb_spec ty "zip") as [-> | _].
  - destruct (resolve_name (targetDir e) (targetDirPrefix e) rev)
      as [target |] eqn:Htarget; [| discriminate].
    cbn [option_map] in Ht. injection Ht as <-.
    assert (Hroot : exists root,
              resolve_name (rootDir e) (rootDirPrefix e) rev = Some root).
    { unfold optional_pairs_ok, exactly_one_present, optional_keys_in_dict
        in Hpairs.
      cbn [DOWNLOAD_FORMATS_TO_DEPENDENCIES_KEYS String.eqb Ascii.eqb Bool.eqb
           optional_key_pairs forallb filter] in Hpairs.
      autorewrite with keys in Hpairs. unfold resolve_name.
      destruct (rootDir e), (rootDirPrefix e); cbn in Hpairs |- *;
        try discriminate; eexists; reflexivity. }
    destruct Hroot as [root Hroot].
    rewrite (dispatch_zip data D rev u root target e st Hrev Hu Hf Hroot
               Htarget HD).
    apply unzip_skipped, Hp.
  - destruct (String.eqb_spec ty "tar") as [-> | _]; [| discriminate].
    destruct (targetDirPrefix e) as [prefix |] eqn:Hprefix; [| discriminate].
    cbn [option_map] in Ht. injection Ht as <-.
    assert (Htar : exists tar_prefix, tarRootDirPrefix e = Some tar_prefix).
    { unfold has_mandatory_keys, all_mandatory_present in Hk.
      cbn [DOWNLOAD_FORMATS_TO_DEPENDENCIES_KEYS String.eqb Ascii.eqb Bool.eqb
           mandatory_keys forallb] in Hk.
      autorewrite with keys in Hk.
      destruct (tarRootDirPrefix e); [eexists; reflexivity |].
      cbn in Hk. rewrite !andb_false_r in Hk. discriminate. }
    destruct Htar as [tar_prefix Htar].
    rewrite (dispatch_tar data D rev u tar_prefix prefix e st Hrev Hu Hf Htar
               Hprefix HD).
    apply untar_skipped, Hp.
Qed.

(** X9.  Running the installer again on an installed manifest does
    nothing: when every entry is an accepted [zip] or [tar] entry whose
    target directory exists, [download_all_dependencies] returns
    normally with the machine, the log of calls and the standard output
    as they were. *)
Theorem installed_manifest_noop (filepath text : string)
  (m : DependenciesDict) (st : state W) :
  sys_read_file os filepath (world st) = inr text ->
  sys_json_loads os text = inr m ->
  (forall category deps name e,
     In (category, deps) (dependencies m) -> In (name, e) deps ->
     fst (validate_dependency W e st) = Ok tt /\
     exists p, archive_target category e = Some p /\
               sys_exists os p (world st) = true) ->
  download_all_dependencies W os filepath st = (Ok tt, st).
Proof.
  intros Hread Hjson Hall.
  rewrite (download_all_after_validation filepath text m st Hread Hjson).
  - unfold fetch_loop. apply for_each_silent. intros [category deps] Hcat.
    apply for_each_silent. intros [name e] Hdep. cbn [fst snd].
    destruct (Hall category deps name e Hcat Hdep) as (Hv & p & Ht & Hp).
    apply (installed_entry_skipped category p e st st Hv Ht Hp).
  - intros category deps name e Hcat Hdep.
    apply (Hall category deps name e Hcat Hdep).
Qed.

End OrchestratorProperties.

(** ** More on the fetchers *)

Section FetcherProperties.

Variable W : Type.
Variable os : Platform W.

Ltac advance H :=
  match type of H with
  | fst (bind ?m ?k ?s) = Ok _ =>
      let a := fresh "a" in
      let Hm := fresh "Hstep" in
      let E := fresh "E" in
      destruct (bind_ok_inv W m k s _ H) as (a & Hm & E);
      rewrite E in H |- *; clear E; destruct a
  end.

Lemma action_ok (c : call) (f : W -> option exn * W) (st : state W) :
  fst (action W c f st) = Ok tt -> fst (f (world st)) = None.
Proof.
  unfold action. destruct (fst (f (world st))); [discriminate | reflexivity].
Qed.

Lemma unzip_target_created
  (source_url target_parent_dir zip_root_name target_root_name : string)
  (st : state W) :
  (forall w,
     fst (sys_rename os (os_path_join target_parent_dir zip_root_name)
            (os_path_join target_parent_dir target_root_name) w) = None ->
     sys_exists os (os_path_join target_parent_dir target_root_name)
       (snd (sys_rename os (os_path_join target_parent_dir zip_root_name)
               (os_path_join target_parent_dir target_root_name) w)) = true) ->
  fst (download_and_unzip_files W os source_url target_parent_dir
         zip_root_name target_root_name st) = Ok tt ->
  sys_exists os (os_path_join target_parent_dir target_root_name)
    (world (snd (download_and_unzip_files W os source_url target_parent_dir
                   zip_root_name target_root_name st))) = true.
Proof.
  intros Hren Hr.
  destruct (sys_exists os (os_path_join target_parent_dir target_root_name)
              (world st)) eqn:Habs.
  { rewrite (unzip_skipped W os _ _ _ _ st Habs). exact Habs. }
  unfold download_and_unzip_files in *.
  destruct (bind_ok_inv W _ _ _ _ Hr) as (found & Hfound & E).
  rewrite E in Hr |- *. clear E.
  change (snd (os_path_exists W os
                 (os_path_join target_parent_dir target_root_name) st))
    with st in Hr |- *.
  unfold os_path_exists in Hfound. cbn [fst] in Hfound.
  injection Hfound as Hfound. rewrite Habs in Hfound. subst found.
  cbn [negb] in Hr |- *.
  advance Hr. advance Hr. advance Hr. advance Hr. advance Hr.
  cbn [print print_ snd world]. unfold os_rename in *.
  rewrite action_world. apply Hren.
  match goal with
  | H : fst (action W ?c (sys_rename os _ _) _) = Ok tt |- _ =>
      exact (action_ok c _ _ H)
  end.
Qed.

Lemma untar_target_created
  (source_url target_parent_dir tar_root_name target_root_name : string)
  (st : state W) :
  (forall w,
     fst (sys_rename os (os_path_join target_parent_dir tar_root_name)
            (os_path_join target_parent_dir target_root_name) w) = None ->
     sys_exists os (os_path_join target_parent_dir target_root_name)
       (snd (sys_rename os (os_path_join target_parent_dir tar_root_name)
               (os_path_join target_parent_dir target_root_name) w)) = true) ->
  fst (download_and_untar_files W os source_url target_parent_dir
         tar_root_name target_root_name st) = Ok tt ->
  sys_exists os (os_path_join target_parent_dir target_root_name)
    (world (snd (download_and_untar_files W os source_url target_parent_dir
                   tar_root_name target_root_name st))) = true.
Proof.
  intros Hren Hr.
  destruct (sys_exists os (os_path_join target_parent_dir target_root_name)
              (world st)) eqn:Habs.
  { rewrite (untar_skipped W os _ _ _ _ st Habs). exact Habs. }
  unfold download_and_untar_files in *.
  destruct (bind_ok_inv W _ _ _ _ Hr) as (found & Hfound & E).
  rewrite E in Hr |- *. clear E.
  change (snd (os_path_exists W os
                 (os_path_join target_parent_dir target_root_name) st))
    with st in Hr |- *.
  unfold os_path_exists in Hfound. cbn [fst] in Hfound.
  injection Hfound as Hfound. rewrite Habs in Hfound. subst found.
  cbn [negb] in Hr |- *.
  advance Hr. advance Hr. advance Hr. advance Hr. advance Hr. advance Hr.
  cbn [print print_ snd world]. unfold os_rename in *.
  rewrite action_world. apply Hren.
  match goal with
  | H : fst (action W ?c (sys_rename os _ _) _) = Ok tt |- _ =>
      exact (action_ok c _ _ H)
  end.
Qed.

(** X10.  The zip and the tar fetchers are idempotent: on a machine
    where a successful [os.rename] leaves its destination in place,
    after a run that returned normally a second run with the same
    arguments returns at once and changes nothing. *)
Theorem fetch_rerun_noop
  (source_url target_parent_dir root_name target_root_name : string)
  (st : state W) :
  (forall w,
     fst (sys_rename os (os_path_join target_parent_dir root_name)
            (os_path_join target_parent_dir target_root_name) w) = None ->
     sys_exists os (os_path_join target_parent_dir target_root_name)
       (snd (sys_rename os (os_path_join target_parent_dir root_name)
               (os_path_join target_parent_dir target_root_name) w)) = true) ->
  (forall st1,
     download_and_unzip_files W os source_url target_parent_dir root_name
       target_root_name st = (Ok tt, st1) ->
     download_and_unzip_files W os source_url target_parent_dir root_name
       target_root_name st1 = (Ok tt, st1)) /\
  (forall st1,
     download_and_untar_files W os source_url target_parent_dir root_name
       target_root_name st = (Ok tt, st1) ->
     download_and_untar_files W os source_url target_parent_dir root_name
       target_root_name st1 = (Ok tt, st1)).
Proof.
  intros Hren. split; intros st1 Hrun.
  - apply unzip_skipped.
    pose proof (unzip_target_created source_url target_parent_dir root_name
                  target_root_name st Hren) as H.
    rewrite Hrun in H. apply H. reflexivity.
  - apply untar_skipped.
    pose proof (untar_target_created source_url target_parent_dir root_name
                  target_root_name st Hren) as H.
    rewrite Hrun in H. apply H. reflexivity.
Qed.

End FetcherProperties.

Section FetcherPaths.

Variable W : Type.
Variable os : Platform W.

Ltac run_fetcher :=
  unfold download_and_unzip_files, download_and_untar_files, download_files,
    bind, try_except, os_path_exists, print, print_, ret,
    common_ensure_directory_exists, common_url_retrieve, zip_extractall,
    tar_extractall, os_remove, os_rename, url_open_read, action;
  cbn [fst snd world calls stdout negb].

(** X11.  When unpacking the downloaded file and removing it do not
    fail, the zip fetcher never asks for the archive a second time: the
    calls it makes hold no request with a user-agent, and at most one
    call to the network. *)
Theorem no_refetch_when_first_attempt_succeeds
  (source_url target_parent_dir zip_root_name target_root_name : string)
  (st : state W) :
  let w1 := snd (sys_ensure_directory_exists os target_parent_dir (world st)) in
  let w2 := snd (sys_url_retrieve os source_url TMP_UNZIP_PATH w1) in
  let w3 := snd (sys_zip_extractall os (ZipPath TMP_UNZIP_PATH)
                   target_parent_dir w2) in
  fst (sys_zip_extractall os (ZipPath TMP_UNZIP_PATH) target_parent_dir w2)
  = None ->
  fst (sys_remove os TMP_UNZIP_PATH w3) = None ->
  let r := download_and_unzip_files W os source_url target_parent_dir
             zip_root_name target_root_name st in
  exists made,
    calls (snd r) = (calls st ++ made)%list /\
    (forall req, ~ In (CUrlOpenRead req) made) /\
    (List.length (filter is_network_call made) <= 1)%nat.
Proof.
  intros w1 w2 w3 Hex Hrm r. subst r w3 w2 w1. run_fetcher.
  destruct (sys_exists os _ (world st)); cbn [negb fst snd calls].
  { exists []. rewrite app_nil_r. repeat split; [intros req [] | cbn; lia]. }
  destruct (fst (sys_ensure_directory_exists os target_parent_dir (world st)));
    cbn [fst snd calls].
  { eexists. split; [reflexivity |].
    split; [intros req [[=] | []] | cbn; lia]. }
  destruct (fst (sys_url_retrieve os source_url TMP_UNZIP_PATH _));
    cbn [fst snd calls world].
  { rewrite <- !app_assoc. eexists. split; [reflexivity |].
    split; [intros req [[=] | [[=] | []]] | cbn; lia]. }
  rewrite Hex. cbn [fst snd calls world]. rewrite Hrm. cbn [fst snd calls world].
  destruct (fst (sys_rename os _ _ _)); cbn [fst snd calls world];
    rewrite <- !app_assoc; eexists; (split; [reflexivity |]);
    (split; [intros req H; cbn in H; intuition discriminate | cbn; lia]).
Qed.

(** X12.  [except Exception] does not catch what is not an
    [Exception]: when the first extraction is interrupted, the zip
    fetcher ends with that interruption after three calls; it neither
    removes the temporary archive nor tries the user-agent fallback. *)
Theorem interrupt_is_not_caught
  (source_url target_parent_dir zip_root_name target_root_name : string)
  (e : exn) (st : state W) :
  let w1 := snd (sys_ensure_directory_exists os target_parent_dir (world st)) in
  let w2 := snd (sys_url_retrieve os source_url TMP_UNZIP_PATH w1) in
  sys_exists os (os_path_join target_parent_dir target_root_name) (world st)
  = false ->
  fst (sys_ensure_directory_exists os target_parent_dir (world st)) = None ->
  fst (sys_url_retrieve os source_url TMP_UNZIP_PATH w1) = None ->
  fst (sys_zip_extractall os (ZipPath TMP_UNZIP_PATH) target_parent_dir w2)
  = Some e ->
  is_Exception e = false ->
  let r := download_and_unzip_files W os source_url target_parent_dir
             zip_root_name target_root_name st in
  fst r = Raised e /\
  calls (snd r) =
    (calls st ++ [CEnsureDirectoryExists target_parent_dir;
                  CUrlRetrieve source_url TMP_UNZIP_PATH;
                  CZipExtractAll (ZipPath TMP_UNZIP_PATH) target_parent_dir])%list.
Proof.
  intros w1 w2 Habs Hens Hret Hex He r. subst r w2 w1. run_fetcher.
  rewrite Habs. cbn [negb fst snd calls world].
  rewrite Hens. cbn [fst snd calls world].
  rewrite Hret. cbn [fst snd calls world].
  rewrite Hex. cbn [fst snd calls world]. rewrite He.
  split; [reflexivity |]. cbn [snd calls]. rewrite <- !app_assoc. reflexivity.
Qed.

(** X13.  The tar fetcher has no clean-up on failure: when the
    extraction raises, the exception goes up after three calls, with no
    [os.remove] and no rename, and on a machine where the retrieval
    wrote the temporary archive and the failed extraction did not
    delete it, the archive is still there. *)
Theorem untar_failure_leaves_archive
  (source_url target_parent_dir tar_root_name target_root_name : string)
  (e : exn) (st : state W) :
  let w1 := snd (sys_ensure_directory_exists os target_parent_dir (world st)) in
  let w2 := snd (sys_url_retrieve os source_url TMP_UNZIP_PATH w1) in
  sys_exists os (os_path_join target_parent_dir target_root_name) (world st)
  = false ->
  fst (sys_ensure_directory_exists os target_parent_dir (world st)) = None ->
  fst (sys_url_retrieve os source_url TMP_UNZIP_PATH w1) = None ->
  fst (sys_tar_extractall os TMP_UNZIP_PATH target_parent_dir w2) = Some e ->
  (forall w, sys_exists os TMP_UNZIP_PATH
               (snd (sys_url_retrieve os source_url TMP_UNZIP_PATH w)) = true) ->
  (forall w, sys_exists os TMP_UNZIP_PATH w = true ->
     sys_exists os TMP_UNZIP_PATH
       (snd (sys_tar_extractall os TMP_UNZIP_PATH target_parent_dir w)) = true) ->
  let r := download_and_untar_files W os source_url target_parent_dir
             tar_root_name target_root_name st in
  fst r = Raised e /\
  calls (snd r) =
    (calls st ++ [CEnsureDirectoryExists target_parent_dir;
                  CUrlRetrieve source_url TMP_UNZIP_PATH;
                  CTarExtractAll TMP_UNZIP_PATH target_parent_dir])%list /\
  sys_exists os TMP_UNZIP_PATH (world (snd r)) = true.
Proof.
  intros w1 w2 Habs Hens Hret Hex Hwritten Hkept r. subst r w2 w1. run_fetcher.
  rewrite Habs. cbn [negb fst snd calls world].
  rewrite Hens. cbn [fst snd calls world].
  rewrite Hret. cbn [fst snd calls world].
  rewrite Hex. cbn [fst snd calls world].
  split; [reflexivity | split].
  - rewrite <- !app_assoc. reflexivity.
  - apply Hkept, Hwritten.
Qed.

(** X14.  When every file of the list exists once the directory is
    there, [download_files] retrieves nothing and prints nothing: its
    only call creates the target directory. *)
Theorem download_files_all_present
  (source_url_root target_dir : string) (source_filenames : list string)
  (st : state W) :
  fst (sys_ensure_directory_exists os target_dir (world st)) = None ->
  (forall f, In f source_filenames ->
     sys_exists os (os_path_join target_dir f)
       (snd (sys_ensure_directory_exists os target_dir (world st))) = true) ->
  download_files W os source_url_root target_dir source_filenames st =
  (Ok tt,
   {| world := snd (sys_ensure_directory_exists os target_dir (world st));
      calls := (calls st ++ [CEnsureDirectoryExists target_dir])%list;
      stdout := stdout st |}).
Proof.
  intros Hens Hall. unfold download_files. unfold bind at 1.
  unfold common_ensure_directory_exists, action. rewrite Hens.
  cbn [fst snd]. apply for_each_silent. intros f Hf.
  unfold bind, os_path_exists. cbn [world].
  rewrite (Hall f Hf). reflexivity.
Qed.

Lemma for_each_app_silent {A : Type} (pre l : list A) (body : A -> M W unit)
  (st : state W) :
  (forall x, In x pre -> body x st = (Ok tt, st)) ->
  for_each (pre ++ l) body st = for_each l body st.
Proof.
  induction pre as [| x pre IH]; intros H; [reflexivity |].
  cbn [app for_each]. unfold bind at 1. rewrite (H x (or_introl eq_refl)).
  apply IH. intros y Hy. apply H. right. exact Hy.
Qed.

(** X15.  [download_files] stops at the first retrieval that fails:
    with the files before [f] in place, [f] missing and its retrieval
    raising, the exception goes up, the only calls made are the
    creation of the directory and the retrieval of [f], and no file
    listed after [f] is asked for. *)
Theorem download_files_stops_at_failure
  (source_url_root target_dir f : string) (present rest : list string)
  (e : exn) (st : state W) :
  let w1 := snd (sys_ensure_directory_exists os target_dir (world st)) in
  fst (sys_ensure_directory_exists os target_dir (world st)) = None ->
  (forall g, In g present ->
     sys_exists os (os_path_join target_dir g) w1 = true) ->
  sys_exists os (os_path_join target_dir f) w1 = false ->
  fst (sys_url_retrieve os (source_url_root ++ "/" ++ f)
         (os_path_join target_dir f) w1) = Some e ->
  let r := download_files W os source_url_root target_dir
             (present ++ f :: rest) st in
  fst r = Raised e /\
  calls (snd r) =
    (calls st ++ [CEnsureDirectoryExists target_dir;
                  retrieval_of source_url_root target_dir f])%list.
Proof.
  intros w1 Hens Hpresent Hmissing Hfail r.
  assert (Hrun : exists st',
            r = (Raised e, st') /\
            calls st' =
              ((calls st ++ [CEnsureDirectoryExists target_dir])
               ++ [retrieval_of source_url_root target_dir f])%list).
  { subst r. unfold download_files. unfold bind at 1.
    unfold common_ensure_directory_exists, action. rewrite Hens.
    cbn [fst snd]. fold w1.
    rewrite for_each_app_silent.
    - cbn [for_each]. unfold bind, os_path_exists, print, print_,
        common_url_retrieve, action.
      cbn [fst snd world calls stdout]. rewrite Hmissing. cbn [negb].
      cbn [fst snd world calls stdout]. rewrite Hfail.
      eexists. split; reflexivity.
    - intros g Hg. unfold bind, os_path_exists. cbn [world].
      rewrite (Hpresent g Hg). reflexivity. }
  destruct Hrun as (st' & -> & Hcalls). cbn [fst snd].
  split; [reflexivity |]. rewrite Hcalls, <- app_assoc. reflexivity.
Qed.

End FetcherPaths.

Section TarFetcher.

Variable W : Type.
Variable os : Platform W.

Ltac advance H :=
  match type of H with
  | fst (bind ?m ?k ?s) = Ok _ =>
      let a := fresh "a" in
      let Hm := fresh "Hstep" in
      let E := fresh "E" in
      destruct (bind_ok_inv W m k s _ H) as (a & Hm & E);
      rewrite E in H |- *; clear E; destruct a
  end.

(** X16.  On a machine where a successful [os.remove] removes the file
    and the rename does not create [TMP_UNZIP_PATH]: every run of the
    tar fetcher that starts without its target and returns normally has
    called [os.remove] on the temporary archive, and the archive no
    longer exists when the function returns. *)
Theorem untar_removes_archive
  (source_url target_parent_dir tar_root_name target_root_name : string)
  (st : state W) :
  (forall w, fst (sys_remove os TMP_UNZIP_PATH w) = None ->
     sys_exists os TMP_UNZIP_PATH (snd (sys_remove os TMP_UNZIP_PATH w))
     = false) ->
  (forall w, sys_exists os TMP_UNZIP_PATH w = false ->
     sys_exists os TMP_UNZIP_PATH
       (snd (sys_rename os (os_path_join target_parent_dir tar_root_name)
               (os_path_join target_parent_dir target_root_name) w))
     = false) ->
  sys_exists os (os_path_join target_parent_dir target_root_name) (world st)
  = false ->
  let r := download_and_untar_files W os source_url target_parent_dir
             tar_root_name target_root_name st in
  fst r = Ok tt ->
  In (CRemove TMP_UNZIP_PATH) (calls (snd r)) /\
  sys_exists os TMP_UNZIP_PATH (world (snd r)) = false.
Proof.
  intros Hrm Hren Habs r Hr. unfold r in *. clear r.
  unfold download_and_untar_files in *.
  destruct (bind_ok_inv W _ _ _ _ Hr) as (found & Hfound & E).
  rewrite E in Hr |- *. clear E.
  change (snd (os_path_exists W os
                 (os_path_join target_parent_dir target_root_name) st))
    with st in Hr |- *.
  unfold os_path_exists in Hfound. cbn [fst] in Hfound.
  injection Hfound as Hfound. rewrite Habs in Hfound. subst found.
  cbn [negb] in Hr |- *.
  advance Hr. advance Hr. advance Hr. advance Hr. advance Hr. advance Hr.
  clear Hr. cbn [print print_ snd world calls]. unfold os_rename.
  rewrite action_calls, action_world.
  match goal with
  | H : fst (os_remove W os TMP_UNZIP_PATH ?s) = Ok tt |- _ =>
      set (s4 := s) in *; unfold os_remove in H |- *;
      pose proof (action_ok W _ _ _ H) as Hremoved
  end.
  split.
  - apply in_or_app. left. rewrite action_calls.
    apply in_or_app. right. left. reflexivity.
  - apply Hren. rewrite action_world. apply Hrm, Hremoved.
Qed.

End TarFetcher.

(** ** Runs for the properties above *)

Lemma sound_manifest_entries (st : state (list string)) :
  forall category deps name e,
    In (category, deps) (dependencies sound_manifest) -> In (name, e) deps ->
    fst (validate_dependency (list string) e st) = Ok tt.
Proof.
  intros category deps name e [[= <- <-] | [[= <- <-] | []]] [[= <- <-] | []];
    reflexivity.
Qed.

Lemma sim_rename_creates (archive_root src dst : string) (b : bool)
  (m : DependenciesDict) (w : list string) :
  fst (sys_rename (Sim.platform b archive_root m) src dst w) = None ->
  sys_exists (Sim.platform b archive_root m) dst
    (snd (sys_rename (Sim.platform b archive_root m) src dst w)) = true.
Proof.
  cbn [sys_rename sys_exists Sim.platform].
  destruct (in_list src w); cbn [fst snd]; [| discriminate].
  intros _. apply sim_in_add_same.
Qed.

Lemma manifest_accepted_iff_witness :
  let os := Sim.platform false "pkg-3" sound_manifest in
  let st := Sim.initial ["dependencies.json"] in
  validate_dependencies (list string) os "dependencies.json" st = (Ok tt, st).
Proof.
  intros os st.
  apply (proj1 (manifest_accepted_iff (list string) os "dependencies.json"
                  "{}" sound_manifest st eq_refl eq_refl)).
  apply sound_manifest_entries.
Defined.

Lemma manifest_unavailable_witness :
  let os := Sim.platform false "pkg-3" sound_manifest in
  download_all_dependencies (list string) os "dependencies.json"
    (Sim.initial [])
  = (Raised (LibraryError "FileNotFoundError"), Sim.initial []).
Proof.
  intros os.
  apply (manifest_unavailable (list string) os).
  left. reflexivity.
Defined.

Lemma unknown_category_raises_witness :
  let os := Sim.platform false "pkg-3" manifest_unknown_category in
  download_dependency (list string) os "backend" example_zip_entry
    (Sim.initial ["dependencies.json"])
  = (Raised (KeyError "backend"), Sim.initial ["dependencies.json"]).
Proof.
  intros os.
  exact (unknown_category_raises (list string) os "backend" example_zip_entry
           (Sim.initial []) (Sim.initial ["dependencies.json"])
           eq_refl eq_refl).
Defined.

(** The whole run on that manifest: validation passes, then the
    orchestrator raises without a single call. *)
Example unknown_category_run :
  download_all_dependencies (list string)
    (Sim.platform false "pkg-3" manifest_unknown_category)
    "dependencies.json" (Sim.initial ["dependencies.json"])
  = (Raised (KeyError "backend"), Sim.initial ["dependencies.json"]).
Proof. reflexivity. Qed.

Lemma valid_manifest_is_fetched_witness :
  let os := Sim.platform false "pkg-3" sound_manifest in
  let st := Sim.initial ["dependencies.json"] in
  download_all_dependencies (list string) os "dependencies.json" st =
  for_each (dependencies sound_manifest) (fun category =>
    for_each (snd category) (fun named =>
      download_dependency (list string) os (fst category) (snd named))) st.
Proof.
  intros os st.
  apply (valid_manifest_is_fetched (list string) os "dependencies.json" "{}"
           sound_manifest st eq_refl eq_refl).
  apply sound_manifest_entries.
Defined.

Lemma installed_manifest_noop_witness :
  let os := Sim.platform false "pkg-3" sound_manifest in
  let st := Sim.initial ["dependencies.json"; "./third_party/static/pkg-3";
                         "../oppia_tools/tool-1.2"] in
  download_all_dependencies (list string) os "dependencies.json" st
  = (Ok tt, st).
Proof.
  intros os st.
  apply (installed_manifest_noop (list string) os "dependencies.json" "{}"
           sound_manifest st eq_refl eq_refl).
  intros category deps name e [[= <- <-] | [[= <- <-] | []]] [[= <- <-] | []];
    (split; [reflexivity | eexists; split; reflexivity]).
Defined.

Lemma fetch_rerun_noop_witness :
  let os := Sim.platform false "pkg-3" sound_manifest in
  let st1 := snd (download_and_unzip_files (list string) os
                    "https://x/pkg-3.zip" "./third_party/static" "pkg-3"
                    "pkg-3" (Sim.initial [])) in
  download_and_unzip_files (list string) os "https://x/pkg-3.zip"
    "./third_party/static" "pkg-3" "pkg-3" st1 = (Ok tt, st1).
Proof.
  intros os st1.
  apply (proj1 (fetch_rerun_noop (list string) os "https://x/pkg-3.zip"
                  "./third_party/static" "pkg-3" "pkg-3" (Sim.initial [])
                  (sim_rename_creates _ _ _ _ _))).
  reflexivity.
Defined.

Lemma no_refetch_when_first_attempt_succeeds_witness :
  let os := Sim.platform false "pkg-3" sound_manifest in
  let r := download_and_unzip_files (list string) os "https://x/pkg-3.zip"
             "./third_party/static" "pkg-3" "pkg-3" (Sim.initial []) in
  exists made,
    calls (snd r) = (calls (Sim.initial []) ++ made)%list /\
    (forall req, ~ In (CUrlOpenRead req) made) /\
    (List.length (filter is_network_call made) <= 1)%nat.
Proof.
  intros os.
  apply (no_refetch_when_first_attempt_succeeds (list string) os);
    reflexivity.
Defined.

Lemma interrupt_is_not_caught_witness :
  let os := faulty_platform (Some KeyboardInterrupt) None "none" in
  let r := download_and_unzip_files (list string) os "https://x/pkg-3.zip"
             "./third_party/static" "pkg-3" "pkg-3" (Sim.initial []) in
  fst r = Raised KeyboardInterrupt /\
  calls (snd r) =
    [CEnsureDirectoryExists "./third_party/static";
     CUrlRetrieve "https://x/pkg-3.zip" TMP_UNZIP_PATH;
     CZipExtractAll (ZipPath TMP_UNZIP_PATH) "./third_party/static"].
Proof.
  intros os.
  apply (interrupt_is_not_caught (list string) os "https://x/pkg-3.zip"
           "./third_party/static" "pkg-3" "pkg-3" KeyboardInterrupt
           (Sim.initial []));
    reflexivity.
Defined.

Lemma untar_failure_leaves_archive_witness :
  let os := faulty_platform None (Some (LibraryError "ReadError")) "none" in
  let r := download_and_untar_files (list string) os
             "https://x/tool-1.2.tar.gz" "../oppia_tools" "tool-v1.2"
             "tool-1.2" (Sim.initial []) in
  fst r = Raised (LibraryError "ReadError") /\
  calls (snd r) =
    [CEnsureDirectoryExists "../oppia_tools";
     CUrlRetrieve "https://x/tool-1.2.tar.gz" TMP_UNZIP_PATH;
     CTarExtractAll TMP_UNZIP_PATH "../oppia_tools"] /\
  sys_exists os TMP_UNZIP_PATH (world (snd r)) = true.
Proof.
  intros os.
  apply (untar_failure_leaves_archive (list string) os
           "https://x/tool-1.2.tar.gz" "../oppia_tools" "tool-v1.2"
           "tool-1.2" (LibraryError "ReadError") (Sim.initial []));
    try reflexivity.
  - intros w. apply sim_in_add_same.
  - intros w H. exact H.
Defined.

Lemma download_files_all_present_witness :
  let os := Sim.platform false "pkg-3" sound_manifest in
  let dir := "./third_party/static/fonts-1" in
  download_files (list string) os "https://x/fonts" dir ["a.css"; "b.css"]
    (Sim.initial ["./third_party/static/fonts-1/a.css";
                  "./third_party/static/fonts-1/b.css"])
  = (Ok tt,
     {| world := [dir; "./third_party/static/fonts-1/a.css";
                  "./third_party/static/fonts-1/b.css"];
        calls := [CEnsureDirectoryExists dir];
        stdout := [] |}).
Proof.
  intros os dir.
  apply (download_files_all_present (list string) os "https://x/fonts" dir
           ["a.css"; "b.css"]).
  - reflexivity.
  - intros f [<- | [<- | []]]; reflexivity.
Defined.

Lemma download_files_stops_at_failure_witness :
  let os := faulty_platform None None "https://x/fonts/b.css" in
  let dir := "./third_party/static/fonts-1" in
  let r := download_files (list string) os "https://x/fonts" dir
             (["a.css"] ++ "b.css" :: ["c.css"])
             (Sim.initial ["./third_party/static/fonts-1/a.css"]) in
  fst r = Raised (LibraryError "URLError") /\
  calls (snd r) =
    [CEnsureDirectoryExists dir; retrieval_of "https://x/fonts" dir "b.css"].
Proof.
  intros os dir.
  apply (download_files_stops_at_failure (list string) os "https://x/fonts"
           dir "b.css" ["a.css"] ["c.css"] (LibraryError "URLError")
           (Sim.initial ["./third_party/static/fonts-1/a.css"])).
  - reflexivity.
  - intros g [<- | []]. reflexivity.
  - reflexivity.
  - reflexivity.
Defined.

Lemma untar_removes_archive_witness :
  let os := Sim.platform false "tool-v1.2" sound_manifest in
  let r := download_and_untar_files (list string) os
             "https://x/tool-1.2.tar.gz" "../oppia_tools" "tool-v1.2"
             "tool-1.2" (Sim.initial []) in
  In (CRemove TMP_UNZIP_PATH) (calls (snd r)) /\
  sys_exists os TMP_UNZIP_PATH (world (snd r)) = false.
Proof.
  intros os.
  apply (untar_removes_archive (list string) os "https://x/tool-1.2.tar.gz"
           "../oppia_tools" "tool-v1.2" "tool-1.2" (Sim.initial [])).
  - intros w. simpl. destruct (in_list TMP_UNZIP_PATH w); simpl.
    + intros _. apply sim_in_del_same.
    + discriminate.
  - intros w H. simpl.
    destruct (in_list (os_path_join _ _) w); simpl; [| exact H].
    rewrite sim_in_add_other; [| discriminate].
    apply sim_in_del_absent, H.
  - reflexivity.
  - reflexivity.
Defined.
